(** * pyEPR [ProjectInfo]: the session handle between pyEPR and Ansys

    A shallow embedding of [pyEPR/project_info.py].  The handle is a record of
    attributes; every method is a computation that threads the handle, the
    state of the Ansys collaborator and the list of calls made into it, and
    that either returns a value or raises an exception.  As in Python, what a
    method wrote before it raised stays written. *)

From Stdlib Require Import Ascii.
From stdpp Require Import base strings list gmap.

(** ** The Ansys collaborator

    [pyEPR.ansys] is reached only through the calls below.  A call takes the
    collaborator's state to a new state and either raises a [failure] of the
    collaborator or returns.  Attribute reads ([.name], [.solution_type],
    [.modeler]) are functions of the handle. *)

Class Ansys := {
  world : Type;
  failure : Type;
  HfssApp : Type;
  HfssDesktop : Type;
  HfssProject : Type;
  HfssDesign : Type;
  HfssSetup : Type;
  HfssModeler : Type;
  (* ansys.load_ansys_project(project_name, project_path) *)
  load_ansys_project :
    option string → option string → world →
    world * (failure + (HfssApp * HfssDesktop * HfssProject));
  (* ansys.release() *)
  ansys_release : world → world * (failure + unit);
  app_release : HfssApp → world → world * (failure + unit);
  desktop_release : HfssDesktop → world → world * (failure + unit);
  (* project.name, project.get_path(), ... *)
  project_name_of : HfssProject → string;
  get_path : HfssProject → world → world * (failure + string);
  get_active_design : HfssProject → world → world * (failure + HfssDesign);
  get_design : HfssProject → string → world → world * (failure + HfssDesign);
  project_get_variable_names :
    HfssProject → world → world * (failure + list string);
  project_release : HfssProject → world → world * (failure + unit);
  (* design.name, design.solution_type, design.modeler, ... *)
  design_name_of : HfssDesign → string;
  solution_type : HfssDesign → string;
  modeler : HfssDesign → HfssModeler;
  get_setup_names : HfssDesign → world → world * (failure + list string);
  create_em_setup : HfssDesign → world → world * (failure + HfssSetup);
  create_dm_setup : HfssDesign → world → world * (failure + HfssSetup);
  design_get_setup :
    HfssDesign → option string → world → world * (failure + option HfssSetup);
  design_get_variable_names :
    HfssDesign → world → world * (failure + list string);
  (* setup.name *)
  setup_name_of : HfssSetup → string;
  (* modeler.get_objects_in_group(group) *)
  get_objects_in_group :
    HfssModeler → string → world → world * (failure + list string)
}.

(** A junction or port record: a dict from field name to the name it holds.
    [junctions] and [ports] are ordered dicts, iterated in insertion order. *)
Abbreviation record := (gmap string string).

Section ProjectInfo.
Context `{ansys : Ansys}.

(** A call into the collaborator, with the handle it goes to and its
    arguments. *)
Inductive call :=
| Call_load_ansys_project (project_name project_path : option string)
| Call_ansys_release
| Call_app_release (a : HfssApp)
| Call_desktop_release (d : HfssDesktop)
| Call_get_path (p : HfssProject)
| Call_get_active_design (p : HfssProject)
| Call_get_design (p : HfssProject) (name : string)
| Call_project_get_variable_names (p : HfssProject)
| Call_project_release (p : HfssProject)
| Call_get_setup_names (d : HfssDesign)
| Call_create_em_setup (d : HfssDesign)
| Call_create_dm_setup (d : HfssDesign)
| Call_design_get_setup (d : HfssDesign) (name : option string)
| Call_design_get_variable_names (d : HfssDesign)
| Call_get_objects_in_group (m : HfssModeler) (group : string).

(** ** Exceptions

    [Failure e] is an exception raised inside the collaborator; it derives
    from [Exception], as every class below does, so [except Exception]
    catches it.
    [Exception msg cause] is [Exception(msg).with_traceback(tb)] raised from
    the [except] block that handles [cause], with [tb] the traceback of
    [cause]: it carries that traceback and has [cause] as its context. *)
Inductive exception :=
| Failure (e : failure)
| AttributeError (attr : string)
| KeyError (key : string)
| AssertionError (msg : string)
| Exception (msg : string) (cause : exception).

Definition message (e : exception) : option string :=
  match e with
  | AssertionError msg | Exception msg _ => Some msg
  | _ => None
  end.

Definition context (e : exception) : option exception :=
  match e with
  | Exception _ cause => Some cause
  | _ => None
  end.

(** The exception whose raise point the traceback of [e] starts from. *)
Fixpoint traceback_origin (e : exception) : exception :=
  match e with
  | Exception _ cause => traceback_origin cause
  | _ => e
  end.

Inductive outcome (A : Type) :=
| Returned (a : A)
| Raised (e : exception).
Global Arguments Returned {A} a.
Global Arguments Raised {A} e.

(** ** The handle *)

Record _Dissipative := {
  dielectrics_bulk : option (list string);
  dielectric_surfaces : option (list string);
  resistive_surfaces : option (list string);
  seams : option (list string)
}.

Record ProjectInfo := {
  project_path : option string;
  project_name : option string;
  design_name : option string;
  setup_name : option string;
  junctions : list (string * record);
  ports : list (string * record);
  dissipative : _Dissipative;
  options : list (string * string);
  app : option HfssApp;
  desktop : option HfssDesktop;
  project : option HfssProject;
  design : option HfssDesign;
  setup : option HfssSetup
}.

Definition set_project_path (v : option string) (s : ProjectInfo) :=
  {| project_path := v; project_name := project_name s;
     design_name := design_name s; setup_name := setup_name s;
     junctions := junctions s; ports := ports s;
     dissipative := dissipative s; options := options s;
     app := app s; desktop := desktop s; project := project s;
     design := design s; setup := setup s |}.

Definition set_project_name (v : option string) (s : ProjectInfo) :=
  {| project_path := project_path s; project_name := v;
     design_name := design_name s; setup_name := setup_name s;
     junctions := junctions s; ports := ports s;
     dissipative := dissipative s; options := options s;
     app := app s; desktop := desktop s; project := project s;
     design := design s; setup := setup s |}.

Definition set_design_name (v : option string) (s : ProjectInfo) :=
  {| project_path := project_path s; project_name := project_name s;
     design_name := v; setup_name := setup_name s;
     junctions := junctions s; ports := ports s;
     dissipative := dissipative s; options := options s;
     app := app s; desktop := desktop s; project := project s;
     design := design s; setup := setup s |}.

Definition set_setup_name (v : option string) (s : ProjectInfo) :=
  {| project_path := project_path s; project_name := project_name s;
     design_name := design_name s; setup_name := v;
     junctions := junctions s; ports := ports s;
     dissipative := dissipative s; options := options s;
     app := app s; desktop := desktop s; project := project s;
     design := design s; setup := setup s |}.

Definition set_handles (a : option HfssApp) (d : option HfssDesktop)
    (p : option HfssProject) (s : ProjectInfo) :=
  {| project_path := project_path s; project_name := project_name s;
     design_name := design_name s; setup_name := setup_name s;
     junctions := junctions s; ports := ports s;
     dissipative := dissipative s; options := options s;
     app := a; desktop := d; project := p;
     design := design s; setup := setup s |}.

Definition set_design (v : option HfssDesign) (s : ProjectInfo) :=
  {| project_path := project_path s; project_name := project_name s;
     design_name := design_name s; setup_name := setup_name s;
     junctions := junctions s; ports := ports s;
     dissipative := dissipative s; options := options s;
     app := app s; desktop := desktop s; project := project s;
     design := v; setup := setup s |}.

Definition set_setup (v : option HfssSetup) (s : ProjectInfo) :=
  {| project_path := project_path s; project_name := project_name s;
     design_name := design_name s; setup_name := setup_name s;
     junctions := junctions s; ports := ports s;
     dissipative := dissipative s; options := options s;
     app := app s; desktop := desktop s; project := project s;
     design := design s; setup := v |}.

(** ** Computations *)

Record state := {
  self : ProjectInfo;
  remote : world;
  calls : list call
}.

Definition M (A : Type) : Type := state → state * outcome A.

Definition ret {A} (a : A) : M A := λ st, (st, Returned a).

Definition raise {A} (e : exception) : M A := λ st, (st, Raised e).

Definition bind {A B} (c : M A) (k : A → M B) : M B :=
  λ st,
    match c st with
    | (st', Returned a) => k a st'
    | (st', Raised e) => (st', Raised e)
    end.

(** [try: body except Exception as e: handler e] *)
Definition try_except {A} (body : M A) (handler : exception → M A) : M A :=
  λ st,
    match body st with
    | (st', Returned a) => (st', Returned a)
    | (st', Raised e) => handler e st'
    end.

(** [self.attr] *)
Definition attr {A} (f : ProjectInfo → A) : M A :=
  λ st, (st, Returned (f (self st))).

(** [self.attr = v], through the setter of [attr] *)
Definition assign (f : ProjectInfo → ProjectInfo) : M unit :=
  λ st,
    ({| self := f (self st); remote := remote st; calls := calls st |},
     Returned tt).

(** [self.handle.name]: reading attribute [name] of a handle that may be
    [None] *)
Definition attr_of {A} (f : ProjectInfo → option A) (name : string) : M A :=
  λ st,
    match f (self st) with
    | Some h => (st, Returned h)
    | None => (st, Raised (AttributeError name))
    end.

(** A call into the collaborator: it is appended to [calls], the
    collaborator moves to its new state, and its failure is raised here. *)
Definition remote_call {A} (c : call)
    (op : world → world * (failure + A)) : M A :=
  λ st,
    let (w, r) := op (remote st) in
    ({| self := self st; remote := w; calls := calls st ++ [c] |},
     match r with
     | inl e => Raised (Failure e)
     | inr a => Returned a
     end).

(** [assert cond, msg] *)
Definition assert (cond : bool) (msg : string) : M unit :=
  if cond then ret tt else raise (AssertionError msg).

(** [d[key]] *)
Definition getitem (d : record) (key : string) : M string :=
  match d !! key with
  | Some v => ret v
  | None => raise (KeyError key)
  end.

(** [for x in l: body x] *)
Fixpoint for_each {A} (l : list A) (body : A → M unit) : M unit :=
  match l with
  | [] => ret tt
  | x :: l' => bind (body x) (λ _, for_each l' body)
  end.

Notation "x <- c ;; k" := (bind c (λ x, k))
  (at level 100, c at next level, right associativity, only parsing).
Notation "c ;; k" := (bind c (λ _, k))
  (at level 100, k at level 200, right associativity, only parsing).

(** ** The methods of [ProjectInfo] *)

Definition get_setup (name : option string) : M (option HfssSetup) :=
  match name with
  | None => ret None
  | Some _ =>
      d <- attr_of design "get_setup" ;;
      n <- attr setup_name ;;
      s <- remote_call (Call_design_get_setup d n) (design_get_setup d n) ;;
      assign (set_setup s) ;;
      s' <- attr_of setup "name" ;;
      assign (set_setup_name (Some (setup_name_of s'))) ;;
      s'' <- attr setup ;;
      ret s''
  end.

(** *** Message texts *)

Definition nl : string := String "010"%char "".

Fixpoint indent (n : nat) : string :=
  match n with
  | 0 => ""
  | S n' => String " "%char (indent n')
  end.

Definition design_message : string :=
  " Did you provide the correct design name?" +:+ indent 20 +:+
  "Failed to pull up design. 😭".

Definition setup_message : string :=
  " Did you provide the correct setup name?" +:+ indent 24 +:+
  "Failed to pull up setup. 😭".

Definition disconnect_message : string :=
  "It does not appear that you have connected to HFSS yet." +:+ indent 12 +:+
  "Use the connect()  method. 🤢".

Definition Lj_variable_message (jjnm value : string) : string :=
  "pyEPR ProjectInfo user error found 😷:" +:+ nl +:+ indent 16 +:+
  "Seems like for junction `" +:+ jjnm +:+
  "` you specified a design or project" +:+ nl +:+ indent 16 +:+
  "variable for `Lj_variable` that does not exist in HFSS by the name:" +:+
  nl +:+ indent 17 +:+ "`" +:+ value +:+ "` ".

Definition object_message (jjnm name value : string) : string :=
  "pyEPR ProjectInfo user error found 😷:" +:+ nl +:+ indent 20 +:+
  "Seems like for junction `" +:+ jjnm +:+ "` you specified a " +:+ name +:+
  " that does not exist" +:+ nl +:+ indent 20 +:+
  "in HFSS by the name: `" +:+ value +:+ "` ".

(** *** connect

    [connect] returns [self]; here the handle is the [self] of the final
    state.  The [logger] calls are left out: they read attributes and change
    neither the handle nor the collaborator, except that the [logger.info]
    of the named-design branch reads [self.design.solution_type] inside the
    [try]. *)

Definition connect : M unit :=
  pn <- attr project_name ;;
  pp <- attr project_path ;;
  r <- remote_call (Call_load_ansys_project pn pp)
         (load_ansys_project pn pp) ;;
  assign (set_handles (Some r.1.1) (Some r.1.2) (Some r.2)) ;;
  p <- attr_of project "name" ;;
  assign (set_project_name (Some (project_name_of p))) ;;
  p <- attr_of project "get_path" ;;
  path <- remote_call (Call_get_path p) (get_path p) ;;
  assign (set_project_path (Some path)) ;;
  (* Design *)
  dn <- attr design_name ;;
  match dn with
  | None =>
      p <- attr_of project "get_active_design" ;;
      d <- remote_call (Call_get_active_design p) (get_active_design p) ;;
      assign (set_design (Some d)) ;;
      d <- attr_of design "name" ;;
      assign (set_design_name (Some (design_name_of d)))
  | Some n =>
      try_except
        (p <- attr_of project "get_design" ;;
         d <- remote_call (Call_get_design p n) (get_design p n) ;;
         assign (set_design (Some d)) ;;
         _ <- attr_of design "solution_type" ;;
         ret tt)
        (λ e, raise (Exception design_message e))
  end ;;
  (* Setup *)
  try_except
    (d <- attr_of design "get_setup_names" ;;
     setup_names <- remote_call (Call_get_setup_names d) (get_setup_names d) ;;
     match setup_names with
     | [] =>
         d <- attr_of design "solution_type" ;;
         if String.eqb (solution_type d) "Eigenmode" then
           d <- attr_of design "create_em_setup" ;;
           setup <- remote_call (Call_create_em_setup d) (create_em_setup d) ;;
           assign (set_setup_name (Some (setup_name_of setup)))
         else
           d <- attr_of design "solution_type" ;;
           if String.eqb (solution_type d) "DrivenModal" then
             d <- attr_of design "create_dm_setup" ;;
             setup <- remote_call (Call_create_dm_setup d)
                        (create_dm_setup d) ;;
             assign (set_setup_name (Some (setup_name_of setup)))
           else ret tt
     | name :: _ => assign (set_setup_name (Some name))
     end ;;
     n <- attr setup_name ;;
     _ <- get_setup n ;;
     ret tt)
    (λ e, raise (Exception setup_message e)) ;;
  (* Finalize *)
  p <- attr_of project "name" ;;
  assign (set_project_name (Some (project_name_of p))) ;;
  d <- attr_of design "name" ;;
  assign (set_design_name (Some (design_name_of d))).

(** [__init__]: [normalize] is [str(Path(.))] and [config_ansys] is
    [config.ansys]. *)
Definition init (normalize : string → string)
    (config_ansys : list (string * string))
    (project_path project_name design_name setup_name : option string)
    (do_connect : bool) : M unit :=
  assign (λ _,
    {| project_path := normalize <$> project_path;
       project_name := project_name;
       design_name := design_name;
       setup_name := setup_name;
       junctions := [];
       ports := [];
       dissipative :=
         {| dielectrics_bulk := None; dielectric_surfaces := None;
            resistive_surfaces := None; seams := None |};
       options := config_ansys;
       app := None; desktop := None; project := None; design := None;
       setup := None |}) ;;
  if do_connect then connect else ret tt.

(** *** check_connected, disconnect *)

Definition is_not_None {A} (o : option A) : bool :=
  match o with
  | Some _ => true
  | None => false
  end.

(** [a and b] on booleans: [b] is evaluated only when [a] is true *)
Definition and_then (a b : M bool) : M bool :=
  x <- a ;; if x then b else ret false.

Definition check_connected : M bool :=
  and_then (s <- attr setup ;; ret (is_not_None s))
 (and_then (d <- attr design ;; ret (is_not_None d))
 (and_then (p <- attr project ;; ret (is_not_None p))
 (and_then (d <- attr desktop ;; ret (is_not_None d))
           (a <- attr app ;; ret (is_not_None a))))).

Definition disconnect : M unit :=
  connected <- check_connected ;;
  assert connected disconnect_message ;;
  p <- attr_of project "release" ;;
  remote_call (Call_project_release p) (project_release p) ;;
  d <- attr_of desktop "release" ;;
  remote_call (Call_desktop_release d) (desktop_release d) ;;
  a <- attr_of app "release" ;;
  remote_call (Call_app_release a) (app_release a) ;;
  remote_call Call_ansys_release ansys_release.

(** *** Utility functions *)

Definition get_dm : M (option HfssDesign * HfssModeler) :=
  d <- attr design ;;
  d' <- attr_of design "modeler" ;;
  ret (d, modeler d').

Definition get_all_variables_names : M (list string) :=
  p <- attr_of project "get_variable_names" ;;
  pv <- remote_call (Call_project_get_variable_names p)
          (project_get_variable_names p) ;;
  d <- attr_of design "get_variable_names" ;;
  dv <- remote_call (Call_design_get_variable_names d)
          (design_get_variable_names d) ;;
  ret (pv ++ dv).

Definition object_groups : list string :=
  ["Non Model"; "Solids"; "Unclassified"; "Sheets"; "Lines"].

(** The loop of [get_all_object_names] over the groups still to visit, with
    [o_objects] as accumulated so far *)
Fixpoint get_all_object_names_loop (groups : list string)
    (o_objects : list string) : M (list string) :=
  match groups with
  | [] => ret o_objects
  | s :: groups' =>
      d <- attr_of design "modeler" ;;
      objs <- remote_call (Call_get_objects_in_group (modeler d) s)
                (get_objects_in_group (modeler d) s) ;;
      get_all_object_names_loop groups' (o_objects ++ objs)
  end.

Definition get_all_object_names : M (list string) :=
  get_all_object_names_loop object_groups [].

(** *** validate_junction_info *)

(** The body of the loop over [self.junctions.items()] *)
Definition validate_junction (all_variables_names all_object_names : list string)
    (item : string * record) : M unit :=
  let (jjnm, jj) := item in
  lj <- getitem jj "Lj_variable" ;;
  assert (bool_decide (lj ∈ all_variables_names))
    (Lj_variable_message jjnm lj) ;;
  for_each ["rect"; "line"] (λ name,
    v <- getitem jj name ;;
    assert (bool_decide (v ∈ all_object_names))
      (object_message jjnm name v)).

Definition validate_junction_info : M unit :=
  all_variables_names <- get_all_variables_names ;;
  all_object_names <- get_all_object_names ;;
  items <- attr junctions ;;
  for_each items (validate_junction all_variables_names all_object_names).

(** *** save *)

(** The value of an attribute of the handle, of [self.dissipative] or of
    [self.options] *)
Inductive value :=
| Vstr (s : option string)
| Vnames (l : option (list string))
| Vdict (d : list (string * record))
| Vdissipative (d : _Dissipative)
| Voptions (o : list (string * string))
| Vapp (h : option HfssApp)
| Vdesktop (h : option HfssDesktop)
| Vproject (h : option HfssProject)
| Vdesign (h : option HfssDesign)
| Vsetup (h : option HfssSetup).

Definition _Forbidden : list string :=
  ["app"; "design"; "desktop"; "project";
   "dissipative"; "setup"; "_Forbidden"; "junctions"].

(** The attributes of a handle, of its [dissipative] and of its [options] *)
Definition vars (s : ProjectInfo) : list (string * value) :=
  [("project_path", Vstr (project_path s));
   ("project_name", Vstr (project_name s));
   ("design_name", Vstr (design_name s));
   ("setup_name", Vstr (setup_name s));
   ("junctions", Vdict (junctions s));
   ("ports", Vdict (ports s));
   ("dissipative", Vdissipative (dissipative s));
   ("options", Voptions (options s));
   ("app", Vapp (app s));
   ("desktop", Vdesktop (desktop s));
   ("project", Vproject (project s));
   ("design", Vdesign (design s));
   ("setup", Vsetup (setup s));
   ("_Forbidden", Vnames (Some _Forbidden))].

Definition dissipative_vars (d : _Dissipative) : list (string * value) :=
  [("dielectrics_bulk", Vnames (dielectrics_bulk d));
   ("dielectric_surfaces", Vnames (dielectric_surfaces d));
   ("resistive_surfaces", Vnames (resistive_surfaces d));
   ("seams", Vnames (seams d))].

Definition options_vars (o : list (string * string)) : list (string * value) :=
  (λ kv, (kv.1, Vstr (Some kv.2))) <$> o.

(** A plain scalar value: a string, [None] or a collection of names.  A
    mapping, a sub-record and a handle to the collaborator are not. *)
Definition plain_scalar (v : value) : bool :=
  match v with
  | Vstr _ | Vnames _ => true
  | _ => false
  end.

(** Modelled from the spec: [get_instance_vars] of [pyEPR.toolbox.pythonic]
    is not part of this file.  The spec has [save] record "all plain scalar
    attributes of the handle except a fixed exclusion set", and record the
    fields of the dissipative sub-record (each unset or a collection of
    names) and of the options: the attributes of the object that hold a
    plain scalar value and whose name is not in [Forbidden], which defaults
    to the empty list. *)
Definition get_instance_vars (obj : list (string * value))
    (Forbidden : list string) : list (string * value) :=
  filter (λ kv, plain_scalar kv.2 ∧ kv.1 ∉ Forbidden) obj.

(** The five blocks [save] returns; a [pd.Series] is the list of its labelled
    entries and a [pd.DataFrame] of a dict of records is that dict. *)
Record snapshot := {
  snapshot_pinfo : list (string * value);
  snapshot_dissip : list (string * value);
  snapshot_options : list (string * value);
  snapshot_junctions : list (string * record);
  snapshot_ports : list (string * record)
}.

Definition save : M snapshot :=
  s <- attr id ;;
  d <- attr dissipative ;;
  o <- attr options ;;
  j <- attr junctions ;;
  p <- attr ports ;;
  ret {| snapshot_pinfo := get_instance_vars (vars s) _Forbidden;
         snapshot_dissip := get_instance_vars (dissipative_vars d) [];
         snapshot_options := get_instance_vars (options_vars o) [];
         snapshot_junctions := j;
         snapshot_ports := p |}.

End ProjectInfo.

Arguments state {ansys}.
Arguments M {ansys} A.
Arguments exception {ansys}.
Arguments call {ansys}.
Arguments ProjectInfo {ansys}.

(** ** A reference collaborator

    One open project with named designs.  A design has a solution type, its
    setups, its variables and its objects by group.  Lookups by a name that
    is not there fail, except [design.get_setup], which returns [None]. *)

Module Mock.

Record design_entry := {
  entry_name : string;
  entry_solution_type : string;
  entry_setups : list string;
  entry_variables : list string;
  entry_objects : list (string * list string)
}.

Record project_state := {
  name : string;
  path : string;
  variables : list string;
  active : option string;
  designs : list design_entry;
  released : list string
}.

Definition find_design (n : string) (w : project_state) : option design_entry :=
  List.find (λ e, String.eqb (entry_name e) n) (designs w).

Definition handle_of (e : design_entry) : string * string :=
  (entry_name e, entry_solution_type e).

Definition lookup_design (n : string) (w : project_state)
    : project_state * (string + string * string) :=
  match find_design n w with
  | Some e => (w, inr (handle_of e))
  | None => (w, inl ("no design named " +:+ n))
  end.

Definition with_design (d : string * string) (w : project_state)
    {A} (k : design_entry → project_state * (string + A))
    : project_state * (string + A) :=
  match find_design d.1 w with
  | Some e => k e
  | None => (w, inl ("no design named " +:+ d.1))
  end.

Definition add_setup (n s : string) (w : project_state) : project_state :=
  {| name := name w; path := path w; variables := variables w;
     active := active w;
     designs :=
       (λ e, if String.eqb (entry_name e) n
             then {| entry_name := entry_name e;
                     entry_solution_type := entry_solution_type e;
                     entry_setups := entry_setups e ++ [s];
                     entry_variables := entry_variables e;
                     entry_objects := entry_objects e |}
             else e) <$> designs w;
     released := released w |}.

Definition release (what : string) (w : project_state)
    : project_state * (string + unit) :=
  ({| name := name w; path := path w; variables := variables w;
      active := active w; designs := designs w;
      released := released w ++ [what] |}, inr tt).

Definition objects_in (group : string) (e : design_entry) : list string :=
  match List.find (λ g, String.eqb g.1 group) (entry_objects e) with
  | Some g => g.2
  | None => []
  end.

#[export] Instance ansys : Ansys := {|
  world := project_state;
  failure := string;
  HfssApp := unit;
  HfssDesktop := unit;
  HfssProject := string;
  HfssDesign := string * string;
  HfssSetup := string;
  HfssModeler := string * string;
  load_ansys_project pn pp w :=
    match pn with
    | None => (w, inr (tt, tt, name w))
    | Some n =>
        if String.eqb n (name w) then (w, inr (tt, tt, name w))
        else (w, inl ("no project named " +:+ n))
    end;
  ansys_release := release "ansys";
  app_release _ := release "app";
  desktop_release _ := release "desktop";
  project_name_of p := p;
  get_path _ w := (w, inr (path w));
  get_active_design _ w :=
    match active w with
    | Some n => lookup_design n w
    | None => (w, inl "no active design")
    end;
  get_design _ n w := lookup_design n w;
  project_get_variable_names _ w := (w, inr (variables w));
  project_release _ := release "project";
  design_name_of d := d.1;
  solution_type d := d.2;
  modeler d := d;
  get_setup_names d w := with_design d w (λ e, (w, inr (entry_setups e)));
  create_em_setup d w :=
    with_design d w (λ _, (add_setup d.1 "Setup" w, inr "Setup"));
  create_dm_setup d w :=
    with_design d w (λ _, (add_setup d.1 "Setup" w, inr "Setup"));
  design_get_setup d n w :=
    with_design d w (λ e,
      match n with
      | Some n =>
          if bool_decide (n ∈ entry_setups e) then (w, inr (Some n))
          else (w, inr None)
      | None => (w, inr (head (entry_setups e)))
      end);
  design_get_variable_names d w :=
    with_design d w (λ e, (w, inr (entry_variables e)));
  setup_name_of s := s;
  get_objects_in_group m group w :=
    with_design m w (λ e, (w, inr (objects_in group e)))
|}.

(** A project with a transmon design that has two setups and a fresh
    eigenmode design that has none *)
Definition transmon : design_entry :=
  {| entry_name := "transmon";
     entry_solution_type := "Eigenmode";
     entry_setups := ["Setup1"; "Setup2"];
     entry_variables := ["Lj_1"; "Lj_2"];
     entry_objects :=
       [("Solids", ["substrate"; "jj_rect_1"]);
        ("Sheets", ["jj_rect_1"; "jj_rect_2"]);
        ("Lines", ["jj_line_1"; "jj_line_2"])] |}.

Definition fresh : design_entry :=
  {| entry_name := "fresh";
     entry_solution_type := "Eigenmode";
     entry_setups := [];
     entry_variables := [];
     entry_objects := [] |}.

Definition chip : project_state :=
  {| name := "chip"; path := "C:/sims"; variables := ["$global"];
     active := Some "transmon"; designs := [transmon; fresh];
     released := [] |}.

(** The same project with no design active *)
Definition idle : project_state :=
  {| name := "chip"; path := "C:/sims"; variables := ["$global"];
     active := None; designs := [transmon; fresh];
     released := [] |}.

Definition no_dissipation : _Dissipative :=
  {| dielectrics_bulk := None; dielectric_surfaces := None;
     resistive_surfaces := None; seams := None |}.

(** The handle as [__init__] leaves it with [do_connect=False] *)
Definition unconnected (design_name : option string) : ProjectInfo :=
  {| project_path := None; project_name := None;
     design_name := design_name; setup_name := None;
     junctions := []; ports := []; dissipative := no_dissipation;
     options := []; app := None; desktop := None; project := None;
     design := None; setup := None |}.

Definition j1 : record :=
  <["Lj_variable" := "Lj_1"]> (<["rect" := "jj_rect_1"]>
    (<["line" := "jj_line_1"]> ∅)).

Definition j2_bad_rect : record :=
  <["Lj_variable" := "Lj_2"]> (<["rect" := "jj_rect_9"]>
    (<["line" := "jj_line_9"]> ∅)).

Definition j3_bad_Lj : record :=
  <["Lj_variable" := "Lj_9"]> ∅.

(** The handle connected to the transmon design, with junctions declared *)
Definition connected (junctions : list (string * record)) : ProjectInfo :=
  {| project_path := Some "C:/sims"; project_name := Some "chip";
     design_name := Some "transmon"; setup_name := Some "Setup1";
     junctions := junctions; ports := [("p1", ∅)];
     dissipative := no_dissipation;
     options := []; app := Some tt; desktop := Some tt;
     project := Some "chip"; design := Some ("transmon", "Eigenmode");
     setup := Some "Setup1" |}.

Definition start (s : ProjectInfo) : state :=
  {| self := s; remote := chip; calls := [] |}.

Definition declared : list (string * record) :=
  [("j1", j1); ("j2", j2_bad_rect); ("j3", j3_bad_Lj)].

(** Two more designs without setups: a driven-modal one and one of a
    solution type [connect] creates no setup for *)
Definition driven : design_entry :=
  {| entry_name := "driven";
     entry_solution_type := "DrivenModal";
     entry_setups := [];
     entry_variables := [];
     entry_objects := [] |}.

Definition q3d : design_entry :=
  {| entry_name := "q3d";
     entry_solution_type := "Q3D Extractor";
     entry_setups := [];
     entry_variables := [];
     entry_objects := [] |}.

Definition lab : project_state :=
  {| name := "lab"; path := "C:/lab"; variables := [];
     active := Some "q3d"; designs := [transmon; driven; q3d];
     released := [] |}.

(** The handle of [ProjectInfo(design_name=..., setup_name=...,
    do_connect=False)] *)
Definition requested (design_name setup_name : option string) : ProjectInfo :=
  {| project_path := None; project_name := None;
     design_name := design_name; setup_name := setup_name;
     junctions := []; ports := []; dissipative := no_dissipation;
     options := []; app := None; desktop := None; project := None;
     design := None; setup := None |}.

Definition start_in (w : project_state) (s : ProjectInfo) : state :=
  {| self := s; remote := w; calls := [] |}.

Definition j4_no_line : record :=
  <["Lj_variable" := "Lj_1"]> (<["rect" := "jj_rect_1"]> ∅).

End Mock.

(** ** A collaborator that loses its connection

    It answers as many calls as its state counts, with fixed answers, and
    fails every call after that. *)

Module Flaky.

Definition answer {A} (a : A) (budget : nat) : nat * (string + A) :=
  match budget with
  | 0 => (0, inl "connection lost")
  | S budget' => (budget', inr a)
  end.

#[export] Instance ansys : Ansys := {|
  world := nat;
  failure := string;
  HfssApp := unit;
  HfssDesktop := unit;
  HfssProject := unit;
  HfssDesign := unit;
  HfssSetup := string;
  HfssModeler := unit;
  load_ansys_project _ _ := answer (tt, tt, tt);
  ansys_release := answer tt;
  app_release _ := answer tt;
  desktop_release _ := answer tt;
  project_name_of _ := "chip";
  get_path _ := answer "C:/sims";
  get_active_design _ := answer tt;
  get_design _ _ := answer tt;
  project_get_variable_names _ := answer ["$global"];
  project_release _ := answer tt;
  design_name_of _ := "transmon";
  solution_type _ := "Eigenmode";
  modeler _ := tt;
  get_setup_names _ := answer ["Setup1"];
  create_em_setup _ := answer "Setup";
  create_dm_setup _ := answer "Setup";
  design_get_setup _ n := answer n;
  design_get_variable_names _ := answer ["Lj_1"];
  setup_name_of s := s;
  get_objects_in_group _ group := answer [group]
|}.

Definition blank : ProjectInfo :=
  {| project_path := None; project_name := None;
     design_name := None; setup_name := None;
     junctions := []; ports := [];
     dissipative :=
       {| dielectrics_bulk := None; dielectric_surfaces := None;
          resistive_surfaces := None; seams := None |};
     options := []; app := None; desktop := None; project := None;
     design := None; setup := None |}.

Definition bound : ProjectInfo :=
  {| project_path := Some "C:/sims"; project_name := Some "chip";
     design_name := Some "transmon"; setup_name := Some "Setup1";
     junctions := []; ports := [];
     dissipative :=
       {| dielectrics_bulk := None; dielectric_surfaces := None;
          resistive_surfaces := None; seams := None |};
     options := []; app := Some tt; desktop := Some tt; project := Some tt;
     design := Some tt; setup := Some "Setup1" |}.

Definition start (s : ProjectInfo) (budget : nat) : state :=
  {| self := s; remote := budget; calls := [] |}.

End Flaky.

(** * Properties *)

Section Properties.
Context `{ansys : Ansys}.

Implicit Types (st : state) (s : ProjectInfo).

(** [part] occurs in [msg] *)
Definition mentions (msg part : string) : Prop :=
  ∃ before after, msg = before +:+ part +:+ after.

(** [jj[field]] is there and is one of [names] *)
Definition holds_one_of (names : list string) (jj : record)
    (field : string) : Prop :=
  ∃ v, jj !! field = Some v ∧ v ∈ names.

(** What [validate_junction_info] asks of a junction record *)
Definition junction_ok (all_variables_names all_object_names : list string)
    (jj : record) : Prop :=
  holds_one_of all_variables_names jj "Lj_variable" ∧
  holds_one_of all_object_names jj "rect" ∧
  holds_one_of all_object_names jj "line".

(** The design lookup [connect] makes for a [design_name]: the active design
    when there is none, the design of that name otherwise *)
Definition design_lookup (design_name : option string) (p : HfssProject)
    : world → world * (failure + HfssDesign) :=
  match design_name with
  | None => get_active_design p
  | Some n => get_design p n
  end.

Definition Call_design_lookup (design_name : option string)
    (p : HfssProject) : call :=
  match design_name with
  | None => Call_get_active_design p
  | Some n => Call_get_design p n
  end.

(** [self.setup_name] after [get_setup] looked [name] up and the lookup
    answered [r]: the name of the setup found, and [name] still when the
    lookup failed or found none *)
Definition refreshed_name (name : string)
    (r : failure + option HfssSetup) : string :=
  match r with
  | inr (Some s') => setup_name_of s'
  | _ => name
  end.

(** [R] relates the state before a computation to the state after it,
    whatever the outcome *)
Definition keeps {A} (R : state → state → Prop) (c : M A) : Prop :=
  ∀ st, R st (c st).1.

(** No attribute of the handle has changed *)
Definition same_handle st st' : Prop := self st' = self st.

(** What the user declared on the handle has not changed, and the calls
    recorded before are still there, in front *)
Definition declarations_kept st st' : Prop :=
  junctions (self st') = junctions (self st) ∧
  ports (self st') = ports (self st) ∧
  dissipative (self st') = dissipative (self st) ∧
  options (self st') = options (self st) ∧
  ∃ new, calls st' = calls st ++ new.

(** [pinfo.junctions = v], as the user of the handle writes it *)
Definition set_junctions (v : list (string * record)) (s : ProjectInfo) :=
  {| project_path := project_path s; project_name := project_name s;
     design_name := design_name s; setup_name := setup_name s;
     junctions := v; ports := ports s;
     dissipative := dissipative s; options := options s;
     app := app s; desktop := desktop s; project := project s;
     design := design s; setup := setup s |}.

(** The state in which the handle is [f] of what it was *)
Definition with_self (f : ProjectInfo → ProjectInfo) st : state :=
  {| self := f (self st); remote := remote st; calls := calls st |}.

(** Two junction records hold the same under the three keys validation
    reads *)
Definition same_names (jj jj' : record) : Prop :=
  jj !! "Lj_variable" = jj' !! "Lj_variable" ∧
  jj !! "rect" = jj' !! "rect" ∧
  jj !! "line" = jj' !! "line".

Lemma append_assoc (a b c : string) : (a +:+ b) +:+ c = a +:+ (b +:+ c).
Proof.
  induction a as [|x a IH]; [done |].
  change (String x ((a +:+ b) +:+ c) = String x (a +:+ (b +:+ c))).
  by rewrite IH.
Qed.

(** ** Construction *)

(** [__init__] with [do_connect=False] only assigns the attributes; with
    [do_connect=True] it goes on with [connect] from there. *)
Lemma init_then_connect (normalize : string → string)
    (config_ansys : list (string * string))
    (path name design setup : option string) (do_connect : bool) st :
  let assigned :=
    {| self :=
         {| project_path := normalize <$> path; project_name := name;
            design_name := design; setup_name := setup;
            junctions := []; ports := [];
            dissipative :=
              {| dielectrics_bulk := None; dielectric_surfaces := None;
                 resistive_surfaces := None; seams := None |};
            options := config_ansys;
            app := None; desktop := None; project := None; design := None;
            setup := None |};
       remote := remote st; calls := calls st |} in
  init normalize config_ansys path name design setup do_connect st =
    if do_connect then connect assigned else (assigned, Returned tt).
Proof. by destruct do_connect. Qed.

(** ** check_connected *)

(** C2: [check_connected()] returns true exactly when setup, design, project,
    desktop and app are all bound, it returns false as soon as one of them is
    unset, and it leaves the handle, the collaborator and the calls made as
    they were. *)
Theorem check_connected_iff_all_bound st :
  ∃ b : bool,
    check_connected st = (st, Returned b) ∧
    (b = true ↔
       setup (self st) ≠ None ∧ design (self st) ≠ None ∧
       project (self st) ≠ None ∧ desktop (self st) ≠ None ∧
       app (self st) ≠ None) ∧
    (setup (self st) = None ∨ design (self st) = None ∨
     project (self st) = None ∨ desktop (self st) = None ∨
     app (self st) = None → b = false).
Proof.
  unfold check_connected, and_then, bind, attr, ret.
  destruct st as [[] w c]; simpl.
  repeat match goal with
         | |- context [is_not_None ?o] => destruct o; simpl
         end;
    eexists; (split; [reflexivity | intuition congruence]).
Qed.

(** ** disconnect *)

(** C5: [disconnect()] asserts [check_connected()]: when that is false it
    raises the assertion error and makes no call into the collaborator.  When
    it is true, the calls it makes are project release, desktop release, app
    release and the process-wide release, in that order, stopping only at a
    release that fails; when the first three succeed all four are made. *)
Theorem disconnect_releases_in_order st :
  (check_connected st = (st, Returned false) →
   disconnect st = (st, Raised (AssertionError disconnect_message))) ∧
  (check_connected st = (st, Returned true) →
   ∃ p dk a,
     project (self st) = Some p ∧ desktop (self st) = Some dk ∧
     app (self st) = Some a ∧
     let releases :=
       [Call_project_release p; Call_desktop_release dk;
        Call_app_release a; Call_ansys_release] in
     (∃ n, 1 ≤ n ≤ 4 ∧
        self (disconnect st).1 = self st ∧
        calls (disconnect st).1 = calls st ++ take n releases ∧
        ((disconnect st).2 = Returned tt → n = 4)) ∧
     ∀ w1 w2 w3 w4 r,
       project_release p (remote st) = (w1, inr tt) →
       desktop_release dk w1 = (w2, inr tt) →
       app_release a w2 = (w3, inr tt) →
       ansys_release w3 = (w4, r) →
       disconnect st =
         ({| self := self st; remote := w4;
             calls := calls st ++ releases |},
          match r with
          | inl e => Raised (Failure e)
          | inr _ => Returned tt
          end)).
Proof.
  unfold disconnect, check_connected, and_then, bind, attr, attr_of, assert,
    remote_call, ret, raise.
  destruct st as [[] w c]; simpl.
  repeat match goal with
         | |- context [is_not_None ?o] => destruct o; simpl
         end;
    (split; [intros; congruence || reflexivity | intros; try congruence]).
  do 3 eexists. do 3 (split; [reflexivity |]). split.
  - destruct (project_release _ w) as [w1 [e1|[]]]; simpl;
      [exists 1; rewrite <- ?app_assoc; simpl; intuition (lia || congruence) |].
    destruct (desktop_release _ w1) as [w2 [e2|[]]]; simpl;
      [exists 2; rewrite <- ?app_assoc; simpl; intuition (lia || congruence) |].
    destruct (app_release _ w2) as [w3 [e3|[]]]; simpl;
      [exists 3; rewrite <- ?app_assoc; simpl; intuition (lia || congruence) |].
    destruct (ansys_release w3) as [w4 [e4|[]]]; simpl;
      exists 4; rewrite <- ?app_assoc; simpl; intuition (lia || congruence).
  - intros w1 w2 w3 w4 r H1 H2 H3 H4.
    rewrite H1; simpl. rewrite H2; simpl. rewrite H3; simpl.
    rewrite H4; simpl.
    rewrite <- !app_assoc; simpl. by destruct r as [e|[]].
Qed.

(** ** get_setup *)

(** C7, as the code has it: [get_setup(None)] returns [None], leaves the
    handle and the collaborator as they were and makes no call; for every
    other name, the empty string included, a handle with a design bound
    makes the one lookup [design.get_setup(name=self.setup_name)]. *)
Theorem get_setup_None_is_noop st :
  get_setup None st = (st, Returned None) ∧
  ∀ name d,
    design (self st) = Some d →
    calls (get_setup (Some name) st).1 =
      calls st ++ [Call_design_get_setup d (setup_name (self st))].
Proof.
  split; [reflexivity |].
  intros name d Hd.
  unfold get_setup, bind, attr, attr_of, remote_call, assign, ret.
  rewrite Hd; simpl.
  destruct (design_get_setup d _ (remote st)) as [w [e|[s'|]]]; reflexivity.
Qed.

(** ** save *)


(** ** get_all_variables_names, get_all_object_names *)

Lemma get_all_variables_names_returned st st1 names :
  get_all_variables_names st = (st1, Returned names) →
  ∃ p d,
    project (self st) = Some p ∧ design (self st) = Some d ∧
    self st1 = self st ∧
    calls st1 =
      calls st ++ [Call_project_get_variable_names p;
                   Call_design_get_variable_names d].
Proof.
  unfold get_all_variables_names, bind, attr_of, remote_call, ret.
  destruct (project (self st)) as [p|]; [| discriminate].
  destruct (project_get_variable_names p (remote st)) as [w1 [e|pv]];
    simpl; [discriminate |].
  destruct (design (self st)) as [d|]; simpl; [| discriminate].
  destruct (design_get_variable_names d w1) as [w2 [e|dv]];
    simpl; [discriminate |].
  intros [= <- _]. exists p, d. simpl. by rewrite <- app_assoc.
Qed.

Lemma get_all_object_names_loop_returned groups acc st st' names d :
  design (self st) = Some d →
  get_all_object_names_loop groups acc st = (st', Returned names) →
  self st' = self st ∧
  calls st' =
    calls st ++ (Call_get_objects_in_group (modeler d) <$> groups).
Proof.
  revert acc st. induction groups as [|g groups IH]; intros acc st Hd; simpl.
  - intros [= <- _]. by rewrite app_nil_r.
  - unfold bind at 1, attr_of. rewrite Hd.
    unfold bind at 1, remote_call.
    destruct (get_objects_in_group (modeler d) g (remote st)) as [w [e|l]];
      [discriminate |].
    intros H. apply IH in H as [-> ->]; [| exact Hd].
    simpl. by rewrite <- app_assoc.
Qed.

Lemma get_all_object_names_returned st st' names :
  get_all_object_names st = (st', Returned names) →
  ∃ d,
    design (self st) = Some d ∧ self st' = self st ∧
    calls st' =
      calls st ++ (Call_get_objects_in_group (modeler d) <$> object_groups).
Proof.
  intros H. destruct (design (self st)) as [d|] eqn:Hd.
  - exists d. split; [done |].
    by apply (get_all_object_names_loop_returned _ [] _ _ names).
  - unfold get_all_object_names in H. simpl in H.
    unfold bind at 1, attr_of in H. by rewrite Hd in H.
Qed.

(** C6: when the five group queries answer [l1] ... [l5],
    [get_all_object_names()] queries the groups "Non Model", "Solids",
    "Unclassified", "Sheets", "Lines" in that order and returns
    [l1 ++ l2 ++ l3 ++ l4 ++ l5]: every name occurs as many times as the
    groups report it, so a name in two groups is there twice. *)
Theorem get_all_object_names_concatenates st d w1 w2 w3 w4 w5 l1 l2 l3 l4 l5 :
  design (self st) = Some d →
  get_objects_in_group (modeler d) "Non Model" (remote st) = (w1, inr l1) →
  get_objects_in_group (modeler d) "Solids" w1 = (w2, inr l2) →
  get_objects_in_group (modeler d) "Unclassified" w2 = (w3, inr l3) →
  get_objects_in_group (modeler d) "Sheets" w3 = (w4, inr l4) →
  get_objects_in_group (modeler d) "Lines" w4 = (w5, inr l5) →
  get_all_object_names st =
    ({| self := self st; remote := w5;
        calls := calls st ++
          [Call_get_objects_in_group (modeler d) "Non Model";
           Call_get_objects_in_group (modeler d) "Solids";
           Call_get_objects_in_group (modeler d) "Unclassified";
           Call_get_objects_in_group (modeler d) "Sheets";
           Call_get_objects_in_group (modeler d) "Lines"] |},
     Returned (l1 ++ l2 ++ l3 ++ l4 ++ l5)) ∧
  ∀ x : string,
    count_occ String.eq_dec (l1 ++ l2 ++ l3 ++ l4 ++ l5) x =
      count_occ String.eq_dec l1 x + count_occ String.eq_dec l2 x +
      count_occ String.eq_dec l3 x + count_occ String.eq_dec l4 x +
      count_occ String.eq_dec l5 x.
Proof.
  intros Hd H1 H2 H3 H4 H5. split.
  - unfold get_all_object_names, object_groups; simpl.
    unfold bind, attr_of, remote_call; simpl.
    repeat (progress (rewrite ?Hd, ?H1, ?H2, ?H3, ?H4, ?H5; simpl)).
    unfold ret. by rewrite <- !app_assoc.
  - intros x. rewrite !count_occ_app. lia.
Qed.

(** ** validate_junction_info *)

Lemma for_each_frame {A} (body : A → M unit) (l : list A) st :
  (∀ x, (body x st).1 = st) → (for_each l body st).1 = st.
Proof.
  intros Hframe. induction l as [|x l IH]; [done |].
  simpl. unfold bind. specialize (Hframe x).
  destruct (body x st) as [st' [[]|e]]; simpl in *; by subst.
Qed.

Lemma for_each_returned {A} (body : A → M unit) (l : list A) st :
  (∀ x, (body x st).1 = st) →
  (for_each l body st).2 = Returned tt ↔
  ∀ x, x ∈ l → (body x st).2 = Returned tt.
Proof.
  intros Hframe. induction l as [|x l IH].
  - split; [by intros _ x ?%elem_of_nil | done].
  - simpl. unfold bind. pose proof (Hframe x) as Hx.
    destruct (body x st) as [st' [[]|e]] eqn:Hb; simpl in *; subst st'.
    + rewrite IH. split.
      * intros Hl y [->|Hy]%elem_of_cons; [by rewrite Hb | by apply Hl].
      * intros Hl y Hy. apply Hl. by right.
    + split; [done |]. intros Hl.
      specialize (Hl x (list_elem_of_here _ _)). by rewrite Hb in Hl.
Qed.

Lemma for_each_first_raise {A} (body : A → M unit)
    (before : list A) (x : A) (after : list A) st e :
  (∀ y, (body y st).1 = st) →
  (∀ y, y ∈ before → (body y st).2 = Returned tt) →
  (body x st).2 = Raised e →
  (for_each (before ++ x :: after) body st).2 = Raised e.
Proof.
  intros Hframe Hbefore Hx. induction before as [|y before IH]; simpl.
  - unfold bind. by destruct (body x st) as [st' [[]|e']]; simplify_eq/=.
  - unfold bind. pose proof (Hframe y) as Hy.
    pose proof (Hbefore y (list_elem_of_here _ _)) as Hret.
    destruct (body y st) as [st' [[]|e']]; simplify_eq/=.
    apply IH. intros z Hz. apply Hbefore. by right.
Qed.

Lemma validate_junction_frame (vars objs : list string)
    (item : string * record) st :
  (validate_junction vars objs item st).1 = st.
Proof.
  destruct item as [jjnm jj].
  unfold validate_junction, for_each, bind, getitem, assert, ret, raise.
  repeat (first [case_match | case_bool_decide]; simplify_eq/=); done.
Qed.

Lemma validate_junction_returned (vars objs : list string)
    (jjnm : string) (jj : record) st :
  (validate_junction vars objs (jjnm, jj) st).2 = Returned tt ↔
  junction_ok vars objs jj.
Proof.
  unfold validate_junction, for_each, bind, getitem, assert, ret, raise,
    junction_ok, holds_one_of.
  destruct (jj !! "Lj_variable") as [lj|]; simpl;
    [| split; [done | by intros [[? [? _]] _]]].
  case_bool_decide; simpl;
    [| split; [done | intros [[? [[= <-] ?]] _]; done]].
  destruct (jj !! "rect") as [r|]; simpl;
    [| split; [done | by intros (_ & [? [? _]] & _)]].
  case_bool_decide; simpl;
    [| split; [done | intros (_ & [? [[= <-] ?]] & _); done]].
  destruct (jj !! "line") as [l|]; simpl;
    [| split; [done | by intros (_ & _ & [? [? _]])]].
  case_bool_decide; simpl;
    [| split; [done | intros (_ & _ & [? [[= <-] ?]]); done]].
  split; [intros _ | done]. split_and!; eauto.
Qed.

Lemma validate_junction_raises (vars objs : list string)
    (jjnm : string) (jj : record) st :
  (∀ v, jj !! "Lj_variable" = Some v → v ∉ vars →
     (validate_junction vars objs (jjnm, jj) st).2 =
       Raised (AssertionError (Lj_variable_message jjnm v))) ∧
  (∀ v, holds_one_of vars jj "Lj_variable" →
     jj !! "rect" = Some v → v ∉ objs →
     (validate_junction vars objs (jjnm, jj) st).2 =
       Raised (AssertionError (object_message jjnm "rect" v))) ∧
  (∀ v, holds_one_of vars jj "Lj_variable" →
     holds_one_of objs jj "rect" →
     jj !! "line" = Some v → v ∉ objs →
     (validate_junction vars objs (jjnm, jj) st).2 =
       Raised (AssertionError (object_message jjnm "line" v))).
Proof.
  unfold validate_junction, for_each, bind, getitem, assert, ret, raise,
    holds_one_of.
  split_and!.
  - intros v -> Hv; simpl. by rewrite bool_decide_eq_false_2.
  - intros v (lj & -> & Hlj) -> Hv; simpl.
    rewrite bool_decide_eq_true_2 by done; simpl.
    by rewrite bool_decide_eq_false_2.
  - intros v (lj & -> & Hlj) (r & -> & Hr) -> Hv; simpl.
    rewrite bool_decide_eq_true_2 by done; simpl.
    rewrite bool_decide_eq_true_2 by done; simpl.
    by rewrite bool_decide_eq_false_2.
Qed.

Lemma append_nil_r (a : string) : a +:+ "" = a.
Proof.
  induction a as [|x a IH]; [done |].
  change (String x (a +:+ "") = String x a). by rewrite IH.
Qed.

Lemma mentions_refl (part : string) : mentions part part.
Proof. exists "", "". by rewrite append_nil_r. Qed.

Lemma mentions_app_l (a b part : string) :
  mentions a part → mentions (a +:+ b) part.
Proof.
  intros (before & after & ->). exists before, (after +:+ b).
  by rewrite !append_assoc.
Qed.

Lemma mentions_app_r (a b part : string) :
  mentions b part → mentions (a +:+ b) part.
Proof.
  intros (before & after & ->). exists (a +:+ before), after.
  by rewrite !append_assoc.
Qed.

Lemma Lj_variable_message_mentions (jjnm v : string) :
  mentions (Lj_variable_message jjnm v) jjnm ∧
  mentions (Lj_variable_message jjnm v) "Lj_variable" ∧
  mentions (Lj_variable_message jjnm v) v.
Proof.
  unfold Lj_variable_message. split_and!.
  - do 4 apply mentions_app_r. apply mentions_app_l, mentions_refl.
  - do 8 apply mentions_app_r. apply mentions_app_l.
    by exists "variable for `", "` that does not exist in HFSS by the name:".
  - do 12 apply mentions_app_r. apply mentions_app_l, mentions_refl.
Qed.

Lemma object_message_mentions (jjnm name v : string) :
  mentions (object_message jjnm name v) jjnm ∧
  mentions (object_message jjnm name v) name ∧
  mentions (object_message jjnm name v) v.
Proof.
  unfold object_message. split_and!.
  - do 4 apply mentions_app_r. apply mentions_app_l, mentions_refl.
  - do 6 apply mentions_app_r. apply mentions_app_l, mentions_refl.
  - do 11 apply mentions_app_r. apply mentions_app_l, mentions_refl.
Qed.

(** The run of [validate_junction_info] once both enumerations returned *)
Lemma validate_junction_info_run st st1 st2 (vars objs : list string) :
  get_all_variables_names st = (st1, Returned vars) →
  get_all_object_names st1 = (st2, Returned objs) →
  validate_junction_info st =
    for_each (junctions (self st)) (validate_junction vars objs) st2.
Proof.
  intros Hvars Hobjs. unfold validate_junction_info, bind at 1.
  rewrite Hvars. unfold bind at 1. rewrite Hobjs. unfold bind, attr.
  apply get_all_variables_names_returned in Hvars as (_ & _ & _ & _ & Hs1 & _).
  apply get_all_object_names_returned in Hobjs as (_ & _ & Hs2 & _).
  by rewrite Hs2, Hs1.
Qed.

(** C1: once the two enumerations returned [vars] and [objs],
    [validate_junction_info()] returns exactly when every junction record
    has its [Lj_variable] in [vars] and its [rect] and [line] in [objs].  At
    the first junction, in insertion order, and the first of its fields
    [Lj_variable], [rect], [line] whose value is not in the list, it raises
    the assertion error whose message names the junction, the field and the
    value; nothing is asked of the fields and junctions after it. *)
Theorem validate_junction_info_first_violation st st1 st2
    (vars objs : list string) :
  get_all_variables_names st = (st1, Returned vars) →
  get_all_object_names st1 = (st2, Returned objs) →
  (validate_junction_info st).1 = st2 ∧
  ((validate_junction_info st).2 = Returned tt ↔
   ∀ jjnm jj, (jjnm, jj) ∈ junctions (self st) → junction_ok vars objs jj) ∧
  ∀ before jjnm jj after,
    junctions (self st) = before ++ (jjnm, jj) :: after →
    (∀ item, item ∈ before → junction_ok vars objs item.2) →
    (∀ v, jj !! "Lj_variable" = Some v → v ∉ vars →
       (validate_junction_info st).2 =
         Raised (AssertionError (Lj_variable_message jjnm v)) ∧
       mentions (Lj_variable_message jjnm v) jjnm ∧
       mentions (Lj_variable_message jjnm v) "Lj_variable" ∧
       mentions (Lj_variable_message jjnm v) v) ∧
    (∀ v, holds_one_of vars jj "Lj_variable" →
       jj !! "rect" = Some v → v ∉ objs →
       (validate_junction_info st).2 =
         Raised (AssertionError (object_message jjnm "rect" v)) ∧
       mentions (object_message jjnm "rect" v) jjnm ∧
       mentions (object_message jjnm "rect" v) "rect" ∧
       mentions (object_message jjnm "rect" v) v) ∧
    (∀ v, holds_one_of vars jj "Lj_variable" →
       holds_one_of objs jj "rect" →
       jj !! "line" = Some v → v ∉ objs →
       (validate_junction_info st).2 =
         Raised (AssertionError (object_message jjnm "line" v)) ∧
       mentions (object_message jjnm "line" v) jjnm ∧
       mentions (object_message jjnm "line" v) "line" ∧
       mentions (object_message jjnm "line" v) v).
Proof.
  intros Hvars Hobjs.
  rewrite (validate_junction_info_run _ _ _ _ _ Hvars Hobjs).
  pose proof (λ item, validate_junction_frame vars objs item st2) as Hframe.
  split_and!.
  - by apply for_each_frame.
  - rewrite for_each_returned by done. split.
    + intros H jjnm jj Hin. apply (validate_junction_returned _ _ jjnm _ st2).
      by apply H.
    + intros H [jjnm jj] Hin. apply validate_junction_returned. by eapply H.
  - intros before jjnm jj after -> Hbefore.
    assert (∀ y, y ∈ before →
              (validate_junction vars objs y st2).2 = Returned tt) as Hret.
    { intros [n r] Hy. apply validate_junction_returned.
      by apply (Hbefore (n, r)). }
    destruct (validate_junction_raises vars objs jjnm jj st2)
      as (HLj & Hrect & Hline).
    split_and!.
    + intros v Hv Hnot. split; [| apply Lj_variable_message_mentions].
      apply for_each_first_raise; auto.
    + intros v Hlj Hv Hnot. split; [| apply object_message_mentions].
      apply for_each_first_raise; auto.
    + intros v Hlj Hrect' Hv Hnot. split; [| apply object_message_mentions].
      apply for_each_first_raise; auto.
Qed.

(** C10: with no junctions declared, [validate_junction_info()] returns
    whatever names the two enumerations returned, and the calls of both
    enumerations have been made: the project's and the design's variable
    names, then the queries of the five object groups "Non Model", "Solids",
    "Unclassified", "Sheets" and "Lines". *)
Theorem validate_junction_info_no_junctions st st1 st2
    (vars objs : list string) :
  junctions (self st) = [] →
  get_all_variables_names st = (st1, Returned vars) →
  get_all_object_names st1 = (st2, Returned objs) →
  validate_junction_info st = (st2, Returned tt) ∧
  ∃ p d,
    project (self st) = Some p ∧ design (self st) = Some d ∧
    calls st2 =
      calls st ++
      [Call_project_get_variable_names p;
       Call_design_get_variable_names d;
       Call_get_objects_in_group (modeler d) "Non Model";
       Call_get_objects_in_group (modeler d) "Solids";
       Call_get_objects_in_group (modeler d) "Unclassified";
       Call_get_objects_in_group (modeler d) "Sheets";
       Call_get_objects_in_group (modeler d) "Lines"].
Proof.
  intros Hnone Hvars Hobjs. split.
  - rewrite (validate_junction_info_run _ _ _ _ _ Hvars Hobjs).
    by rewrite Hnone.
  - apply get_all_variables_names_returned in Hvars
      as (p & d & Hp & Hd & Hs1 & Hc1).
    apply get_all_object_names_returned in Hobjs as (d' & Hd' & _ & Hc2).
    exists p, d. split_and!; [done.. |].
    rewrite Hs1, Hd in Hd'. injection Hd' as <-.
    by rewrite Hc2, Hc1, <- app_assoc.
Qed.

(** ** connect *)

Ltac run_connect :=
  unfold connect, get_setup, bind, try_except, attr, attr_of, assign,
    remote_call, ret, raise; simpl.

Ltac answer H := rewrite ?H; simpl.

(** C8: with no design name given, a failure of
    [project.get_active_design()] leaves [connect()] as the very exception
    the collaborator raised, not wrapped into the [Exception] of the named
    lookup, and no further call is made. *)
Theorem connect_active_design_failure_propagates st a dk p w1 w2 w3 path e :
  design_name (self st) = None →
  load_ansys_project (project_name (self st)) (project_path (self st))
    (remote st) = (w1, inr (a, dk, p)) →
  get_path p w1 = (w2, inr path) →
  get_active_design p w2 = (w3, inl e) →
  (connect st).2 = Raised (Failure e) ∧
  calls (connect st).1 =
    calls st ++
    [Call_load_ansys_project (project_name (self st)) (project_path (self st));
     Call_get_path p; Call_get_active_design p].
Proof.
  intros Hname Hload Hpath Hfail. run_connect.
  answer Hload. answer Hpath. answer Hname. answer Hfail.
  by rewrite <- !app_assoc.
Qed.

(** C4: with a design name given, a failure [e] of
    [project.get_design(design_name)] makes [connect()] raise the
    [Exception] whose message asks for the correct design name, which
    carries the traceback of [e] and has [e] as its context. *)
Theorem connect_design_lookup_failure_wrapped st a dk p w1 w2 w3 path n e :
  design_name (self st) = Some n →
  load_ansys_project (project_name (self st)) (project_path (self st))
    (remote st) = (w1, inr (a, dk, p)) →
  get_path p w1 = (w2, inr path) →
  get_design p n w2 = (w3, inl e) →
  ∃ err,
    (connect st).2 = Raised err ∧
    err = Exception design_message (Failure e) ∧
    message err = Some design_message ∧
    mentions design_message "design name" ∧
    mentions design_message "Did you provide the correct design name?" ∧
    context err = Some (Failure e) ∧
    traceback_origin err = Failure e.
Proof.
  intros Hname Hload Hpath Hfail. eexists. split.
  - run_connect. answer Hload. answer Hpath. answer Hname. answer Hfail.
    reflexivity.
  - split_and!; try reflexivity.
    + by exists " Did you provide the correct ",
        ("?" +:+ indent 20 +:+ "Failed to pull up design. 😭").
    + by exists " ", (indent 20 +:+ "Failed to pull up design. 😭").
Qed.

(** C3: once the project and the design [d] are opened, if
    [d.get_setup_names()] is empty and [d.solution_type] is "Eigenmode",
    [connect()] calls [d.create_em_setup()] once, records the name of the
    setup it returns as [self.setup_name] and looks that name up; if there
    are setups, it records the first name of the enumeration and looks that
    one up.  [get_setup] then refreshes [self.setup_name] from the setup
    found, so the recorded name stays whenever the lookup answers with a
    setup of the name asked for, fails or finds none. *)
Theorem connect_selects_setup st a dk p w1 w2 w3 path d :
  load_ansys_project (project_name (self st)) (project_path (self st))
    (remote st) = (w1, inr (a, dk, p)) →
  get_path p w1 = (w2, inr path) →
  design_lookup (design_name (self st)) p w2 = (w3, inr d) →
  let opened :=
    calls st ++
    [Call_load_ansys_project (project_name (self st)) (project_path (self st));
     Call_get_path p; Call_design_lookup (design_name (self st)) p;
     Call_get_setup_names d] in
  (∀ w4 w5 created,
     get_setup_names d w3 = (w4, inr []) →
     solution_type d = "Eigenmode" →
     create_em_setup d w4 = (w5, inr created) →
     let found := (design_get_setup d (Some (setup_name_of created)) w5).2 in
     calls (connect st).1 =
       opened ++ [Call_create_em_setup d;
                  Call_design_get_setup d (Some (setup_name_of created))] ∧
     setup_name (self (connect st).1) =
       Some (refreshed_name (setup_name_of created) found) ∧
     ((∀ got, found = inr (Some got) →
         setup_name_of got = setup_name_of created) →
      setup_name (self (connect st).1) = Some (setup_name_of created))) ∧
  (∀ w4 name names,
     get_setup_names d w3 = (w4, inr (name :: names)) →
     let found := (design_get_setup d (Some name) w4).2 in
     calls (connect st).1 =
       opened ++ [Call_design_get_setup d (Some name)] ∧
     setup_name (self (connect st).1) = Some (refreshed_name name found) ∧
     ((∀ got, found = inr (Some got) → setup_name_of got = name) →
      setup_name (self (connect st).1) = Some name)).
Proof.
  intros Hload Hpath Hdesign opened. subst opened. split.
  - intros w4 w5 created Hnames Htype Hcreate found. subst found.
    match goal with
    | |- ?A ∧ ?B ∧ _ =>
        assert (A ∧ B) as [Hcalls Hname];
          [| split_and!; [exact Hcalls | exact Hname |]]
    end.
    + run_connect. answer Hload. answer Hpath.
      destruct (design_name (self st)) as [n|]; simpl in *;
        answer Hdesign; answer Hnames; rewrite Htype; simpl;
        answer Hcreate;
        destruct (design_get_setup d _ w5) as [w6 [e'|[s'|]]]; simpl;
        by rewrite <- !app_assoc.
    + intros Hsame. rewrite Hname. f_equal.
      destruct (design_get_setup d _ w5) as [w6 [e'|[s'|]]]; simpl in *;
        auto.
  - intros w4 name names Hnames found. subst found.
    match goal with
    | |- ?A ∧ ?B ∧ _ =>
        assert (A ∧ B) as [Hcalls Hname];
          [| split_and!; [exact Hcalls | exact Hname |]]
    end.
    + run_connect. answer Hload. answer Hpath.
      destruct (design_name (self st)) as [n|]; simpl in *;
        answer Hdesign; answer Hnames;
        destruct (design_get_setup d _ w4) as [w6 [e'|[s'|]]]; simpl;
        by rewrite <- !app_assoc.
    + intros Hsame. rewrite Hname. f_equal.
      destruct (design_get_setup d _ w4) as [w6 [e'|[s'|]]]; simpl in *;
        auto.
Qed.

(** * Further properties *)

(** ** What the methods leave alone *)

Section Keeps.
Context (R : state → state → Prop).
Hypothesis R_refl : ∀ st, R st st.
Hypothesis R_trans : ∀ st1 st2 st3, R st1 st2 → R st2 st3 → R st1 st3.

Lemma keeps_ret {A} (a : A) : keeps R (ret a).
Proof. intros st. apply R_refl. Qed.

Lemma keeps_raise {A} (e : exception) : keeps R (raise (A := A) e).
Proof. intros st. apply R_refl. Qed.

Lemma keeps_attr {A} (f : ProjectInfo → A) : keeps R (attr f).
Proof. intros st. apply R_refl. Qed.

Lemma keeps_attr_of {A} (f : ProjectInfo → option A) (name : string) :
  keeps R (attr_of f name).
Proof. intros st. unfold attr_of. destruct (f (self st)); apply R_refl. Qed.

Lemma keeps_assert (cond : bool) (msg : string) : keeps R (assert cond msg).
Proof. intros st. destruct cond; apply R_refl. Qed.

Lemma keeps_getitem (d : record) (key : string) : keeps R (getitem d key).
Proof. intros st. unfold getitem. destruct (d !! key); apply R_refl. Qed.

Lemma keeps_bind {A B} (c : M A) (k : A → M B) :
  keeps R c → (∀ a, keeps R (k a)) → keeps R (bind c k).
Proof.
  intros Hc Hk st. unfold bind. specialize (Hc st).
  destruct (c st) as [st' [a|e]]; [| exact Hc].
  eapply R_trans; [exact Hc | apply Hk].
Qed.

Lemma keeps_try_except {A} (body : M A) (handler : exception → M A) :
  keeps R body → (∀ e, keeps R (handler e)) → keeps R (try_except body handler).
Proof.
  intros Hc Hk st. unfold try_except. specialize (Hc st).
  destruct (body st) as [st' [a|e]]; [exact Hc |].
  eapply R_trans; [exact Hc | apply Hk].
Qed.

Lemma keeps_for_each {A} (l : list A) (body : A → M unit) :
  (∀ x, keeps R (body x)) → keeps R (for_each l body).
Proof.
  intros Hbody. induction l as [|x l IH]; simpl.
  - apply keeps_ret.
  - apply keeps_bind; [apply Hbody | intros _; exact IH].
Qed.

End Keeps.

Lemma same_handle_refl st : same_handle st st.
Proof. reflexivity. Qed.

Lemma same_handle_trans st1 st2 st3 :
  same_handle st1 st2 → same_handle st2 st3 → same_handle st1 st3.
Proof. unfold same_handle. congruence. Qed.

Lemma same_handle_remote_call {A} (c : call)
    (op : world → world * (failure + A)) :
  keeps same_handle (remote_call c op).
Proof.
  intros st. unfold remote_call. by destruct (op (remote st)) as [w r].
Qed.

Lemma declarations_kept_refl st : declarations_kept st st.
Proof. split_and!; try done. exists []. by rewrite app_nil_r. Qed.

Lemma declarations_kept_trans st1 st2 st3 :
  declarations_kept st1 st2 → declarations_kept st2 st3 →
  declarations_kept st1 st3.
Proof.
  intros (Hj & Hp & Hd & Ho & new & Hc) (Hj' & Hp' & Hd' & Ho' & new' & Hc').
  split_and!; try congruence.
  exists (new ++ new'). by rewrite Hc', Hc, app_assoc.
Qed.

Lemma declarations_kept_remote_call {A} (c : call)
    (op : world → world * (failure + A)) :
  keeps declarations_kept (remote_call c op).
Proof.
  intros st. unfold remote_call. destruct (op (remote st)) as [w r]; simpl.
  split_and!; try done. by exists [c].
Qed.

Lemma declarations_kept_assign (f : ProjectInfo → ProjectInfo) :
  (∀ s, junctions (f s) = junctions s ∧ ports (f s) = ports s ∧
        dissipative (f s) = dissipative s ∧ options (f s) = options s) →
  keeps declarations_kept (assign f).
Proof.
  intros Hf st. destruct (Hf (self st)) as (? & ? & ? & ?).
  split_and!; try done. exists []. simpl. by rewrite app_nil_r.
Qed.

Ltac keeps_same_handle :=
  repeat first
    [ apply (keeps_bind _ same_handle_trans); [| intros ?]
    | apply (keeps_ret _ same_handle_refl)
    | apply (keeps_raise _ same_handle_refl)
    | apply (keeps_attr _ same_handle_refl)
    | apply (keeps_attr_of _ same_handle_refl)
    | apply (keeps_assert _ same_handle_refl)
    | apply (keeps_getitem _ same_handle_refl)
    | apply (keeps_for_each _ same_handle_refl same_handle_trans); intros ?
    | apply same_handle_remote_call
    | case_match ].

Ltac keeps_declarations :=
  repeat first
    [ apply (keeps_bind _ declarations_kept_trans); [| intros ?]
    | apply (keeps_try_except _ declarations_kept_trans); [| intros ?]
    | apply (keeps_ret _ declarations_kept_refl)
    | apply (keeps_raise _ declarations_kept_refl)
    | apply (keeps_attr _ declarations_kept_refl)
    | apply (keeps_attr_of _ declarations_kept_refl)
    | apply declarations_kept_remote_call
    | apply declarations_kept_assign; done
    | case_match ].

Lemma get_all_object_names_loop_same_handle (groups acc : list string) :
  keeps same_handle (get_all_object_names_loop groups acc).
Proof.
  revert acc. induction groups as [|g groups IH]; intros acc; simpl.
  - apply (keeps_ret _ same_handle_refl).
  - keeps_same_handle. apply IH.
Qed.

Lemma check_connected_same_handle : keeps same_handle check_connected.
Proof. unfold check_connected, and_then. keeps_same_handle. Qed.

Lemma disconnect_same_handle : keeps same_handle disconnect.
Proof. unfold disconnect, check_connected, and_then. keeps_same_handle. Qed.

Lemma get_all_variables_names_same_handle :
  keeps same_handle get_all_variables_names.
Proof. unfold get_all_variables_names. keeps_same_handle. Qed.

Lemma validate_junction_info_same_handle :
  keeps same_handle validate_junction_info.
Proof.
  unfold validate_junction_info, get_all_variables_names.
  keeps_same_handle; try apply get_all_object_names_loop_same_handle.
  unfold validate_junction. keeps_same_handle.
Qed.

(** X1: whatever their outcome, [check_connected], [disconnect], [get_dm],
    [get_all_variables_names], [get_all_object_names],
    [validate_junction_info] and [save] leave every attribute of the handle
    as it was; in particular [disconnect] unbinds nothing and validation
    never edits a junction record. *)
Theorem readers_keep_the_handle :
  keeps same_handle check_connected ∧
  keeps same_handle disconnect ∧
  keeps same_handle get_dm ∧
  keeps same_handle get_all_variables_names ∧
  keeps same_handle get_all_object_names ∧
  keeps same_handle validate_junction_info ∧
  keeps same_handle save.
Proof.
  split_and!.
  - apply check_connected_same_handle.
  - apply disconnect_same_handle.
  - unfold get_dm. keeps_same_handle.
  - apply get_all_variables_names_same_handle.
  - apply get_all_object_names_loop_same_handle.
  - apply validate_junction_info_same_handle.
  - unfold save. keeps_same_handle.
Qed.

(** X2: whatever their outcome, [connect] and [get_setup] leave [junctions],
    [ports], [dissipative] and [options] as they were, and only add to the
    calls made: connecting again does not lose what the user declared. *)
Theorem connect_keeps_declarations :
  keeps declarations_kept connect ∧
  ∀ name, keeps declarations_kept (get_setup name).
Proof.
  assert (∀ name, keeps declarations_kept (get_setup name)) as Hget.
  { intros name. unfold get_setup. keeps_declarations. }
  split; [| exact Hget].
  unfold connect. keeps_declarations; apply Hget.
Qed.

(** ** get_setup *)

(** X3: what [get_setup(name)] does for a name that is not [None], whatever
    that name is: without a design it raises [AttributeError] and calls
    nothing; with a design it looks up [self.setup_name], not [name].  If the
    lookup fails the failure is raised and the handle is as before; if it
    finds nothing, [self.setup] is overwritten with [None], [setup_name]
    stays and [AttributeError] is raised; if it finds a setup, that setup is
    bound, [setup_name] becomes its name and it is returned. *)
Theorem get_setup_outcomes (name : string) st :
  (design (self st) = None →
   get_setup (Some name) st = (st, Raised (AttributeError "get_setup"))) ∧
  ∀ d w r,
    design (self st) = Some d →
    design_get_setup d (setup_name (self st)) (remote st) = (w, r) →
    let called :=
      calls st ++ [Call_design_get_setup d (setup_name (self st))] in
    get_setup (Some name) st =
      match r with
      | inl e =>
          ({| self := self st; remote := w; calls := called |},
           Raised (Failure e))
      | inr None =>
          ({| self := set_setup None (self st); remote := w;
              calls := called |},
           Raised (AttributeError "name"))
      | inr (Some found) =>
          ({| self := set_setup_name (Some (setup_name_of found))
                        (set_setup (Some found) (self st));
              remote := w; calls := called |},
           Returned (Some found))
      end.
Proof.
  unfold get_setup, bind, attr, attr_of, remote_call, assign, ret. split.
  - by intros ->.
  - intros d w r -> Hr; simpl. rewrite Hr. by destruct r as [e|[found|]].
Qed.

(** ** get_all_variables_names, get_all_object_names *)

(** X4: [get_all_variables_names()] asks the project first and the design
    second and returns the project's names followed by the design's.  With
    no project bound it raises [AttributeError] and calls nothing; with a
    project but no design it raises [AttributeError] after the project was
    asked; a failing call is raised as it is and nothing is asked after
    it. *)
Theorem get_all_variables_names_outcomes st :
  (project (self st) = None →
   get_all_variables_names st =
     (st, Raised (AttributeError "get_variable_names"))) ∧
  ∀ p w r,
    project (self st) = Some p →
    project_get_variable_names p (remote st) = (w, r) →
    let st1 :=
      {| self := self st; remote := w;
         calls := calls st ++ [Call_project_get_variable_names p] |} in
    match r with
    | inl e => get_all_variables_names st = (st1, Raised (Failure e))
    | inr pv =>
        (design (self st) = None →
         get_all_variables_names st =
           (st1, Raised (AttributeError "get_variable_names"))) ∧
        ∀ d w' r',
          design (self st) = Some d →
          design_get_variable_names d w = (w', r') →
          get_all_variables_names st =
            ({| self := self st; remote := w';
                calls := calls st ++ [Call_project_get_variable_names p;
                                      Call_design_get_variable_names d] |},
             match r' with
             | inl e => Raised (Failure e)
             | inr dv => Returned (pv ++ dv)
             end)
    end.
Proof.
  unfold get_all_variables_names, bind, attr_of, remote_call, ret. split.
  - by intros ->.
  - intros p w r -> Hr; simpl. rewrite Hr. destruct r as [e|pv]; [done |].
    simpl. split.
    + by intros ->.
    + intros d w' r' -> Hr'; simpl. rewrite Hr', <- app_assoc.
      by destruct r' as [e|dv].
Qed.

Lemma get_all_object_names_loop_step (g : string) (groups acc : list string)
    st d :
  design (self st) = Some d →
  get_all_object_names_loop (g :: groups) acc st =
    match get_objects_in_group (modeler d) g (remote st) with
    | (w, inl f) =>
        ({| self := self st; remote := w;
            calls := calls st ++ [Call_get_objects_in_group (modeler d) g] |},
         Raised (Failure f))
    | (w, inr objs) =>
        get_all_object_names_loop groups (acc ++ objs)
          {| self := self st; remote := w;
             calls := calls st ++ [Call_get_objects_in_group (modeler d) g] |}
    end.
Proof.
  intros Hd. simpl. unfold bind, attr_of, remote_call. rewrite Hd.
  by destruct (get_objects_in_group (modeler d) g (remote st)) as [w [f|l]].
Qed.

Lemma get_all_object_names_loop_prefix (groups acc : list string) st d :
  design (self st) = Some d →
  ∃ n,
    n ≤ length groups ∧
    calls (get_all_object_names_loop groups acc st).1 =
      calls st ++ (Call_get_objects_in_group (modeler d) <$> take n groups) ∧
    match (get_all_object_names_loop groups acc st).2 with
    | Returned _ => n = length groups
    | Raised e => 1 ≤ n ∧ ∃ f, e = Failure f
    end.
Proof.
  revert acc st. induction groups as [|g groups IH]; intros acc st Hd.
  - exists 0. simpl. by rewrite app_nil_r.
  - rewrite (get_all_object_names_loop_step _ _ _ _ _ Hd).
    destruct (get_objects_in_group (modeler d) g (remote st)) as [w [f|l]].
    + exists 1. simpl. split_and!; [lia | done | lia | by exists f].
    + match goal with
      | |- context [get_all_object_names_loop groups ?acc' ?st'] =>
          destruct (IH acc' st' Hd) as (n & Hn & Hcalls & Hout)
      end.
      exists (S n). simpl in *. split_and!; [lia | |].
      * by rewrite Hcalls, <- app_assoc.
      * destruct (get_all_object_names_loop groups _ _).2;
          [lia | split; [lia | apply Hout]].
Qed.

(** X5: [get_all_object_names()] with no design bound raises
    [AttributeError] and calls nothing.  With a design bound, the calls it
    makes are the queries of the first [n] groups of the fixed list, in
    order: all five when it returns; when it raises, at least one query was
    made, the exception is a failure of the collaborator and no group after
    the [n]-th is asked. *)
Theorem get_all_object_names_stops_at_failure st :
  (design (self st) = None →
   get_all_object_names st = (st, Raised (AttributeError "modeler"))) ∧
  ∀ d,
    design (self st) = Some d →
    ∃ n,
      n ≤ 5 ∧
      calls (get_all_object_names st).1 =
        calls st ++
        (Call_get_objects_in_group (modeler d) <$> take n object_groups) ∧
      match (get_all_object_names st).2 with
      | Returned _ => n = 5
      | Raised e => 1 ≤ n ∧ ∃ f, e = Failure f
      end.
Proof.
  split.
  - intros Hd. unfold get_all_object_names; simpl.
    unfold bind, attr_of. by rewrite Hd.
  - intros d Hd.
    apply (get_all_object_names_loop_prefix object_groups [] st d Hd).
Qed.

(** ** validate_junction_info, further *)

(** X6: on a handle with no project bound, [validate_junction_info()] raises
    [AttributeError] before it reads any junction and without calling the
    collaborator, whatever junctions are declared. *)
Theorem validate_junction_info_unconnected st :
  project (self st) = None →
  validate_junction_info st =
    (st, Raised (AttributeError "get_variable_names")).
Proof.
  intros Hp.
  unfold validate_junction_info, get_all_variables_names, bind, attr_of.
  by rewrite Hp.
Qed.

Lemma validate_junction_missing (vars objs : list string)
    (jjnm : string) (jj : record) st :
  (jj !! "Lj_variable" = None →
     (validate_junction vars objs (jjnm, jj) st).2 =
       Raised (KeyError "Lj_variable")) ∧
  (holds_one_of vars jj "Lj_variable" → jj !! "rect" = None →
     (validate_junction vars objs (jjnm, jj) st).2 =
       Raised (KeyError "rect")) ∧
  (holds_one_of vars jj "Lj_variable" → holds_one_of objs jj "rect" →
     jj !! "line" = None →
     (validate_junction vars objs (jjnm, jj) st).2 =
       Raised (KeyError "line")).
Proof.
  unfold validate_junction, for_each, bind, getitem, assert, ret, raise,
    holds_one_of.
  split_and!.
  - by intros ->.
  - intros (lj & -> & Hlj) ->; simpl.
    by rewrite bool_decide_eq_true_2.
  - intros (lj & -> & Hlj) (r & -> & Hr) ->; simpl.
    rewrite bool_decide_eq_true_2 by done; simpl.
    by rewrite bool_decide_eq_true_2.
Qed.

(** X7: a junction record that lacks one of the keys [Lj_variable], [rect],
    [line] makes [validate_junction_info()] raise [KeyError] for that key,
    not the assertion error, when the junctions before it are in order and
    the keys read before it hold listed names. *)
Theorem validate_junction_info_missing_key st st1 st2
    (vars objs : list string) :
  get_all_variables_names st = (st1, Returned vars) →
  get_all_object_names st1 = (st2, Returned objs) →
  ∀ before jjnm jj after,
    junctions (self st) = before ++ (jjnm, jj) :: after →
    (∀ item, item ∈ before → junction_ok vars objs item.2) →
    (jj !! "Lj_variable" = None →
     validate_junction_info st = (st2, Raised (KeyError "Lj_variable"))) ∧
    (holds_one_of vars jj "Lj_variable" → jj !! "rect" = None →
     validate_junction_info st = (st2, Raised (KeyError "rect"))) ∧
    (holds_one_of vars jj "Lj_variable" → holds_one_of objs jj "rect" →
     jj !! "line" = None →
     validate_junction_info st = (st2, Raised (KeyError "line"))).
Proof.
  intros Hvars Hobjs before jjnm jj after Hjs Hbefore.
  rewrite (validate_junction_info_run _ _ _ _ _ Hvars Hobjs), Hjs.
  pose proof (λ item, validate_junction_frame vars objs item st2) as Hframe.
  assert (∀ y, y ∈ before →
            (validate_junction vars objs y st2).2 = Returned tt) as Hret.
  { intros [n r] Hy. apply validate_junction_returned.
    by apply (Hbefore (n, r)). }
  assert (∀ e, (validate_junction vars objs (jjnm, jj) st2).2 = Raised e →
            for_each (before ++ (jjnm, jj) :: after)
              (validate_junction vars objs) st2 = (st2, Raised e)) as Hstop.
  { intros e He.
    pose proof (for_each_frame (validate_junction vars objs)
                  (before ++ (jjnm, jj) :: after) st2 Hframe) as H1.
    pose proof (for_each_first_raise (validate_junction vars objs)
                  before (jjnm, jj) after st2 e Hframe Hret He) as H2.
    destruct (for_each _ _ st2) as [st' o]; simpl in *. by subst. }
  destruct (validate_junction_missing vars objs jjnm jj st2)
    as (HLj & Hrect & Hline).
  split_and!; intros; apply Hstop; auto.
Qed.

Lemma get_all_variables_names_with_self (f : ProjectInfo → ProjectInfo) st :
  (∀ s, project (f s) = project s ∧ design (f s) = design s) →
  get_all_variables_names (with_self f st) =
    (with_self f (get_all_variables_names st).1,
     (get_all_variables_names st).2).
Proof.
  intros Hf. destruct (Hf (self st)) as [Hp Hd].
  unfold get_all_variables_names, bind, attr_of, remote_call, ret; simpl.
  rewrite Hp. destruct (project (self st)) as [p|]; [| done]; simpl.
  destruct (project_get_variable_names p (remote st)) as [w1 [e|pv]];
    [done |]; simpl.
  rewrite Hd. destruct (design (self st)) as [d|]; [| done]; simpl.
  by destruct (design_get_variable_names d w1) as [w2 [e|dv]].
Qed.

Lemma get_all_object_names_loop_with_self (f : ProjectInfo → ProjectInfo)
    (groups acc : list string) st :
  (∀ s, project (f s) = project s ∧ design (f s) = design s) →
  get_all_object_names_loop groups acc (with_self f st) =
    (with_self f (get_all_object_names_loop groups acc st).1,
     (get_all_object_names_loop groups acc st).2).
Proof.
  intros Hf. revert acc st.
  induction groups as [|g groups IH]; intros acc st; [done |].
  destruct (Hf (self st)) as [_ Hd].
  destruct (design (self st)) as [d|] eqn:Hdesign.
  - rewrite (get_all_object_names_loop_step g groups acc st d Hdesign).
    rewrite (get_all_object_names_loop_step g groups acc (with_self f st) d)
      by (simpl; congruence).
    simpl.
    destruct (get_objects_in_group (modeler d) g (remote st)) as [w [e|l]];
      [done |].
    apply (IH (acc ++ l)
             {| self := self st; remote := w;
                calls := calls st ++
                  [Call_get_objects_in_group (modeler d) g] |}).
  - simpl. unfold bind, attr_of; simpl. by rewrite Hd, Hdesign.
Qed.

Lemma validate_junction_same_names (vars objs : list string)
    (jjnm : string) (jj jj' : record) st st' :
  same_names jj jj' →
  (validate_junction vars objs (jjnm, jj) st).2 =
  (validate_junction vars objs (jjnm, jj') st').2.
Proof.
  intros (HLj & Hrect & Hline).
  unfold validate_junction, for_each, bind, getitem, assert, ret, raise.
  rewrite <- HLj, <- Hrect, <- Hline.
  repeat (first [case_match | case_bool_decide]; simplify_eq/=); done.
Qed.

Lemma for_each_same_outcome {A} (body : A → M unit) (R : A → A → Prop)
    (l l' : list A) st st' :
  (∀ x st, (body x st).1 = st) →
  (∀ x x', R x x' → (body x st).2 = (body x' st').2) →
  Forall2 R l l' →
  (for_each l body st).2 = (for_each l' body st').2.
Proof.
  intros Hframe Hbody Hl. induction Hl as [|x x' l l' Hx Hl IH]; [done |].
  simpl. unfold bind.
  pose proof (Hframe x st) as H1. pose proof (Hframe x' st') as H2.
  pose proof (Hbody x x' Hx) as H3.
  destruct (body x st) as [st1 [[]|e]], (body x' st') as [st1' [[]|e']];
    simplify_eq/=; done.
Qed.

(** X8: [validate_junction_info()] reads nothing of a junction record but
    [Lj_variable], [rect] and [line]: two declarations with the same junction
    names and the same values under these three keys have the same outcome,
    whatever else the records hold ([length], [Cj_variable], ...). *)
Theorem validate_junction_info_reads_three_keys st
    (js js' : list (string * record)) :
  Forall2 (λ item item', item.1 = item'.1 ∧ same_names item.2 item'.2)
    js js' →
  (validate_junction_info (with_self (set_junctions js) st)).2 =
  (validate_junction_info (with_self (set_junctions js') st)).2.
Proof.
  intros Hjs.
  assert (∀ v s, project (set_junctions v s) = project s ∧
                 design (set_junctions v s) = design s) as Hf by done.
  unfold validate_junction_info, bind.
  rewrite !get_all_variables_names_with_self by apply Hf.
  destruct (get_all_variables_names st) as [st1 [vars|e]]; [| done]; simpl.
  unfold get_all_object_names.
  rewrite !get_all_object_names_loop_with_self by apply Hf.
  destruct (get_all_object_names_loop object_groups [] st1)
    as [st2 [objs|e]]; [| done]; simpl.
  unfold attr; simpl.
  apply (for_each_same_outcome _
           (λ item item', item.1 = item'.1 ∧ same_names item.2 item'.2));
    [apply validate_junction_frame | | done].
  intros [n jj] [n' jj'] [Hn Hsame]; simpl in *; subst n'.
  by apply validate_junction_same_names.
Qed.

(** ** disconnect and check_connected, construction *)

Lemma check_connected_value st :
  check_connected st =
    (st, Returned (is_not_None (setup (self st)) &&
                   (is_not_None (design (self st)) &&
                    (is_not_None (project (self st)) &&
                     (is_not_None (desktop (self st)) &&
                      is_not_None (app (self st))))))).
Proof.
  unfold check_connected, and_then, bind, attr, ret; simpl.
  destruct (setup (self st)); simpl; [| done].
  destruct (design (self st)); simpl; [| done].
  destruct (project (self st)); simpl; [| done].
  by destruct (desktop (self st)).
Qed.

(** X9: [disconnect()] unbinds nothing: on a connected handle,
    [check_connected()] is still true after it, whatever its outcome, and a
    second [disconnect()] passes the assertion and releases the project
    again. *)
Theorem disconnect_unbinds_nothing st :
  check_connected st = (st, Returned true) →
  let st' := (disconnect st).1 in
  check_connected st' = (st', Returned true) ∧
  (disconnect st').2 ≠ Raised (AssertionError disconnect_message) ∧
  ∃ p rest,
    project (self st) = Some p ∧
    calls (disconnect st').1 = calls st' ++ Call_project_release p :: rest.
Proof.
  intros Hc st'. pose proof (disconnect_same_handle st) as Hself.
  fold st' in Hself. unfold same_handle in Hself.
  rewrite check_connected_value in Hc. injection Hc as Hb.
  assert (check_connected st' = (st', Returned true)) as Hc'.
  { by rewrite check_connected_value, Hself, Hb. }
  split; [exact Hc' |].
  destruct (setup (self st)) as [s0|] eqn:Hs; [| done].
  destruct (design (self st)) as [d|] eqn:Hd; [| done].
  destruct (project (self st)) as [p|] eqn:Hp; [| done].
  destruct (desktop (self st)) as [dk|] eqn:Hdk; [| done].
  destruct (app (self st)) as [a|] eqn:Ha; [| done].
  clearbody st'.
  unfold disconnect, bind. rewrite Hc'. simpl.
  unfold attr_of, remote_call. rewrite Hself, Hp. simpl.
  destruct (project_release p (remote st')) as [w1 [e1|[]]]; simpl.
  { split; [done | by exists p, []]. }
  rewrite ?Hself, Hdk; simpl.
  destruct (desktop_release dk w1) as [w2 [e2|[]]]; simpl.
  { split; [done | exists p, [Call_desktop_release dk]].
    by rewrite <- app_assoc. }
  rewrite ?Hself, Ha; simpl.
  destruct (app_release a w2) as [w3 [e3|[]]]; simpl.
  { split; [done |].
    exists p, [Call_desktop_release dk; Call_app_release a].
    by rewrite <- !app_assoc. }
  destruct (ansys_release w3) as [w4 [e4|[]]]; simpl;
    (split; [done |];
     exists p, [Call_desktop_release dk; Call_app_release a;
                Call_ansys_release];
     by rewrite <- !app_assoc).
Qed.

(** X10: a handle constructed with [do_connect=False] has made no call and
    is not connected: [check_connected()] is false, [disconnect()] raises its
    assertion error and [validate_junction_info()] raises [AttributeError],
    each without calling the collaborator. *)
Theorem init_without_connect_is_unconnected (normalize : string → string)
    (config_ansys : list (string * string))
    (path name design setup : option string) st :
  let constructed :=
    (init normalize config_ansys path name design setup false st).1 in
  (init normalize config_ansys path name design setup false st).2 =
    Returned tt ∧
  remote constructed = remote st ∧
  calls constructed = calls st ∧
  check_connected constructed = (constructed, Returned false) ∧
  disconnect constructed =
    (constructed, Raised (AssertionError disconnect_message)) ∧
  validate_junction_info constructed =
    (constructed, Raised (AttributeError "get_variable_names")).
Proof. by split_and!. Qed.

(** ** connect, further *)

(** X11: when [connect()] returns, app, desktop, project and design are
    bound and [project_name] and [design_name] are the names of the bound
    project and design.  If a setup name is recorded then, the setup of that
    name is bound and [check_connected()] is true; if none is recorded,
    [self.setup] is what it was before the call. *)
Theorem connect_returned_is_bound st st' :
  connect st = (st', Returned tt) →
  (∃ a dk p d,
     app (self st') = Some a ∧ desktop (self st') = Some dk ∧
     project (self st') = Some p ∧ design (self st') = Some d ∧
     project_name (self st') = Some (project_name_of p) ∧
     design_name (self st') = Some (design_name_of d) ∧
     match setup_name (self st') with
     | None => setup (self st') = setup (self st)
     | Some n =>
         ∃ found, setup (self st') = Some found ∧ n = setup_name_of found
     end) ∧
  (setup_name (self st') ≠ None →
   check_connected st' = (st', Returned true)).
Proof.
  intros H.
  match goal with
  | |- ?A ∧ _ => assert A as Hbound
  end.
  { unfold connect, get_setup, bind, try_except, attr, attr_of, assign,
      remote_call, ret, raise in H; simpl in H.
    repeat (case_match; simplify_eq/=);
      do 4 eexists; split_and!; try reflexivity; eauto. }
  split; [exact Hbound |].
  destruct Hbound as (a & dk & p & d & Ha & Hdk & Hp & Hd & _ & _ & Hs).
  intros Hn. rewrite check_connected_value, Ha, Hdk, Hp, Hd.
  destruct (setup_name (self st')); [| done].
  by destruct Hs as (found & -> & _).
Qed.

(** X12: with the project and a design [d] opened, no setups on [d] and a
    solution type that is neither "Eigenmode" nor "DrivenModal",
    [connect()] creates no setup.  If the handle has no [setup_name], it
    makes no lookup either and returns with [self.setup] as it was, so a
    fresh handle comes back from [connect()] not connected.  If the handle
    has a [setup_name], that name is looked up, and when nothing is found
    [connect()] raises the setup [Exception] with [self.setup] unbound. *)
Theorem connect_other_solution_type st a dk p w1 w2 w3 w4 path d :
  load_ansys_project (project_name (self st)) (project_path (self st))
    (remote st) = (w1, inr (a, dk, p)) →
  get_path p w1 = (w2, inr path) →
  design_lookup (design_name (self st)) p w2 = (w3, inr d) →
  get_setup_names d w3 = (w4, inr []) →
  solution_type d ≠ "Eigenmode" →
  solution_type d ≠ "DrivenModal" →
  let opened :=
    calls st ++
    [Call_load_ansys_project (project_name (self st)) (project_path (self st));
     Call_get_path p; Call_design_lookup (design_name (self st)) p;
     Call_get_setup_names d] in
  (setup_name (self st) = None →
   (connect st).2 = Returned tt ∧
   calls (connect st).1 = opened ∧
   setup_name (self (connect st).1) = None ∧
   setup (self (connect st).1) = setup (self st) ∧
   (setup (self st) = None →
    check_connected (connect st).1 = ((connect st).1, Returned false))) ∧
  (∀ n,
     setup_name (self st) = Some n →
     calls (connect st).1 = opened ++ [Call_design_get_setup d (Some n)] ∧
     ((design_get_setup d (Some n) w4).2 = inr None →
      (connect st).2 =
        Raised (Exception setup_message (AttributeError "name")) ∧
      setup (self (connect st).1) = None)).
Proof.
  intros Hload Hpath Hdesign Hnames Hem%String.eqb_neq Hdm%String.eqb_neq
    opened. subst opened. split.
  - intros Hnone. rewrite check_connected_value. run_connect.
    answer Hload. answer Hpath.
    destruct (design_name (self st)) as [n|]; simpl in *;
      answer Hdesign; answer Hnames;
      repeat (progress (rewrite ?Hem, ?Hdm, ?Hnone; simpl));
      rewrite <- !app_assoc;
      (split_and!; [done.. |]); by intros ->.
  - intros n Hn. run_connect. answer Hload. answer Hpath.
    destruct (design_name (self st)) as [n'|]; simpl in *;
      answer Hdesign; answer Hnames;
      repeat (progress (rewrite ?Hem, ?Hdm, ?Hn; simpl));
      destruct (design_get_setup d (Some n) w4) as [w5 [e|[found|]]]; simpl;
      rewrite <- !app_assoc; done.
Qed.

(** X13: with the project and a design [d] opened, no setups on [d] and
    solution type "DrivenModal", [connect()] calls [d.create_dm_setup()]
    once and no [create_em_setup], records the created setup's name and
    looks it up. *)
Theorem connect_creates_driven_modal_setup st a dk p w1 w2 w3 w4 w5 path d
    created :
  load_ansys_project (project_name (self st)) (project_path (self st))
    (remote st) = (w1, inr (a, dk, p)) →
  get_path p w1 = (w2, inr path) →
  design_lookup (design_name (self st)) p w2 = (w3, inr d) →
  get_setup_names d w3 = (w4, inr []) →
  solution_type d = "DrivenModal" →
  create_dm_setup d w4 = (w5, inr created) →
  calls (connect st).1 =
    calls st ++
    [Call_load_ansys_project (project_name (self st)) (project_path (self st));
     Call_get_path p; Call_design_lookup (design_name (self st)) p;
     Call_get_setup_names d; Call_create_dm_setup d;
     Call_design_get_setup d (Some (setup_name_of created))] ∧
  setup_name (self (connect st).1) =
    Some (refreshed_name (setup_name_of created)
            (design_get_setup d (Some (setup_name_of created)) w5).2).
Proof.
  intros Hload Hpath Hdesign Hnames Htype Hcreate. run_connect.
  answer Hload. answer Hpath.
  destruct (design_name (self st)) as [n|]; simpl in *;
    answer Hdesign; answer Hnames;
    repeat (progress (rewrite ?Htype, ?Hcreate; simpl));
    destruct (design_get_setup d _ w5) as [w6 [e'|[found|]]]; simpl;
    by rewrite <- !app_assoc.
Qed.

(** X14: with the project and a design [d] opened, a failure [e] of
    [d.get_setup_names()], or of the lookup of the first enumerated setup,
    makes [connect()] raise the [Exception] that asks for the correct setup
    name, with [e] as its context; [self.setup] is as before, and in the
    second case the first enumerated name stays recorded. *)
Theorem connect_setup_failure_wrapped st a dk p w1 w2 w3 path d :
  load_ansys_project (project_name (self st)) (project_path (self st))
    (remote st) = (w1, inr (a, dk, p)) →
  get_path p w1 = (w2, inr path) →
  design_lookup (design_name (self st)) p w2 = (w3, inr d) →
  mentions setup_message "Did you provide the correct setup name?" ∧
  (∀ w4 e,
     get_setup_names d w3 = (w4, inl e) →
     (connect st).2 = Raised (Exception setup_message (Failure e)) ∧
     setup (self (connect st).1) = setup (self st) ∧
     setup_name (self (connect st).1) = setup_name (self st)) ∧
  (∀ w4 w5 name names e,
     get_setup_names d w3 = (w4, inr (name :: names)) →
     design_get_setup d (Some name) w4 = (w5, inl e) →
     (connect st).2 = Raised (Exception setup_message (Failure e)) ∧
     setup (self (connect st).1) = setup (self st) ∧
     setup_name (self (connect st).1) = Some name).
Proof.
  intros Hload Hpath Hdesign. split_and!.
  - by exists " ", (indent 24 +:+ "Failed to pull up setup. 😭").
  - intros w4 e Hnames. run_connect. answer Hload. answer Hpath.
    by destruct (design_name (self st)) as [n|]; simpl in *;
      answer Hdesign; answer Hnames.
  - intros w4 w5 name names e Hnames Hlookup. run_connect.
    answer Hload. answer Hpath.
    by destruct (design_name (self st)) as [n|]; simpl in *;
      answer Hdesign; answer Hnames; answer Hlookup.
Qed.

(** X15: if [ansys.load_ansys_project] fails, [connect()] raises that
    failure as it is, after this one call, and the handle is as it was: no
    handle is bound and no name is changed. *)
Theorem connect_load_failure st w1 e :
  load_ansys_project (project_name (self st)) (project_path (self st))
    (remote st) = (w1, inl e) →
  connect st =
    ({| self := self st; remote := w1;
        calls := calls st ++
          [Call_load_ansys_project (project_name (self st))
             (project_path (self st))] |},
     Raised (Failure e)).
Proof. intros Hload. run_connect. by answer Hload. Qed.

(** X16: if the design lookup fails after the project was opened,
    [connect()] leaves the handle half connected: app, desktop and project
    are bound and [project_name] and [project_path] are refreshed from the
    project, while design, setup and their names are as before; a handle
    that had no design then reports not connected. *)
Theorem connect_design_failure_leaves_project_bound st a dk p w1 w2 w3 path e :
  load_ansys_project (project_name (self st)) (project_path (self st))
    (remote st) = (w1, inr (a, dk, p)) →
  get_path p w1 = (w2, inr path) →
  design_lookup (design_name (self st)) p w2 = (w3, inl e) →
  self (connect st).1 =
    set_project_path (Some path)
      (set_project_name (Some (project_name_of p))
         (set_handles (Some a) (Some dk) (Some p) (self st))) ∧
  (design (self st) = None →
   check_connected (connect st).1 = ((connect st).1, Returned false)).
Proof.
  intros Hload Hpath Hdesign.
  match goal with
  | |- ?A ∧ _ => assert A as Hself
  end.
  { run_connect. answer Hload. answer Hpath.
    by destruct (design_name (self st)) as [n|]; simpl in *;
      answer Hdesign. }
  split; [exact Hself |].
  intros Hd. rewrite check_connected_value, Hself; simpl. rewrite Hd.
  by destruct (setup (self st)).
Qed.

(** X17: when the opened design has setups, the [setup_name] the handle was
    given plays no part: [connect()] does and leaves exactly the same
    whatever [setup_name] held before, and records the first enumerated
    setup. *)
Theorem connect_overrides_given_setup_name st a dk p w1 w2 w3 w4 path d
    name names :
  load_ansys_project (project_name (self st)) (project_path (self st))
    (remote st) = (w1, inr (a, dk, p)) →
  get_path p w1 = (w2, inr path) →
  design_lookup (design_name (self st)) p w2 = (w3, inr d) →
  get_setup_names d w3 = (w4, inr (name :: names)) →
  ∀ given, connect (with_self (set_setup_name given) st) = connect st.
Proof.
  intros Hload Hpath Hdesign Hnames given. unfold with_self. run_connect.
  answer Hload. answer Hpath.
  destruct (design_name (self st)) as [n|]; simpl in *;
    answer Hdesign; answer Hnames;
    by destruct (design_get_setup d (Some name) w4) as [w5 [e|[found|]]].
Qed.

End Properties.

(** * The properties on the reference collaborator *)

Import Mock.

Ltac by_deciding :=
  match goal with
  | |- ?P => apply (bool_decide_unpack P); vm_compute; exact I
  end.

Lemma check_connected_example :
  check_connected (start (connected [])) =
    (start (connected []), Returned true).
Proof. reflexivity. Qed.

Lemma validate_junction_info_first_violation_witness :
  (validate_junction_info (start (connected declared))).2 =
    Raised (AssertionError (object_message "j2" "rect" "jj_rect_9")).
Proof.
  edestruct (validate_junction_info_first_violation
               (start (connected declared))) as (_ & _ & H);
    [vm_compute; reflexivity | vm_compute; reflexivity |].
  edestruct (H [("j1", j1)] "j2" j2_bad_rect [("j3", j3_bad_Lj)])
    as (_ & Hrect & _); [reflexivity | |].
  - intros item ->%list_elem_of_singleton.
    split_and!; eexists; (split; [vm_compute; reflexivity |]);
      by_deciding.
  - apply (Hrect "jj_rect_9").
    + eexists; (split; [vm_compute; reflexivity |]).
      by_deciding.
    + vm_compute; reflexivity.
    + by_deciding.
Defined.

Lemma validate_junction_info_no_junctions_witness :
  validate_junction_info (start (connected [])) =
    ({| self := connected []; remote := chip;
        calls :=
          [Call_project_get_variable_names "chip";
           Call_design_get_variable_names ("transmon", "Eigenmode");
           Call_get_objects_in_group ("transmon", "Eigenmode") "Non Model";
           Call_get_objects_in_group ("transmon", "Eigenmode") "Solids";
           Call_get_objects_in_group ("transmon", "Eigenmode") "Unclassified";
           Call_get_objects_in_group ("transmon", "Eigenmode") "Sheets";
           Call_get_objects_in_group ("transmon", "Eigenmode") "Lines"] |},
     Returned tt).
Proof.
  edestruct (validate_junction_info_no_junctions (start (connected [])))
    as [H _]; [reflexivity | vm_compute; reflexivity
              | vm_compute; reflexivity |].
  exact H.
Defined.

Lemma get_all_object_names_concatenates_witness :
  (get_all_object_names (start (connected []))).2 =
    Returned ["substrate"; "jj_rect_1"; "jj_rect_1"; "jj_rect_2";
              "jj_line_1"; "jj_line_2"] ∧
  count_occ String.eq_dec
    ([] ++ ["substrate"; "jj_rect_1"] ++ [] ++ ["jj_rect_1"; "jj_rect_2"] ++
     ["jj_line_1"; "jj_line_2"]) "jj_rect_1" = 0 + 1 + 0 + 1 + 0.
Proof.
  edestruct (get_all_object_names_concatenates (start (connected []))
               ("transmon", "Eigenmode") chip chip chip chip chip
               [] ["substrate"; "jj_rect_1"] [] ["jj_rect_1"; "jj_rect_2"]
               ["jj_line_1"; "jj_line_2"]) as [Hrun Hcount];
    [reflexivity.. |].
  split; [by rewrite Hrun | apply Hcount].
Defined.

Lemma disconnect_releases_in_order_witness :
  disconnect (start (unconnected None)) =
    (start (unconnected None), Raised (AssertionError disconnect_message)) ∧
  calls (disconnect (start (connected []))).1 =
    [Call_project_release "chip"; Call_desktop_release tt;
     Call_app_release tt; Call_ansys_release].
Proof.
  split.
  - by apply (disconnect_releases_in_order (start (unconnected None))).
  - destruct (disconnect_releases_in_order (start (connected [])))
      as [_ H].
    destruct (H eq_refl) as (p & dk & a & [= <-] & [= <-] & [= <-] & _ & Hall).
    by erewrite Hall.
Defined.

Lemma get_setup_None_is_noop_witness :
  calls (get_setup (Some "") (start (connected []))).1 =
    [Call_design_get_setup ("transmon", "Eigenmode") (Some "Setup1")].
Proof.
  by apply (get_setup_None_is_noop (start (connected []))).
Defined.

(** C7 as stated fails: the empty string is falsy, and [get_setup("")] on a
    connected handle looks the recorded setup up and returns it. *)
Lemma get_setup_empty_name_looks_up :
  get_setup (Some "") (start (connected [])) ≠
    (start (connected []), Returned None) ∧
  get_setup (Some "") (start (connected [])) =
    ({| self := connected []; remote := chip;
        calls :=
          [Call_design_get_setup ("transmon", "Eigenmode") (Some "Setup1")] |},
     Returned (Some "Setup1")).
Proof. split; [discriminate | reflexivity]. Qed.


Lemma connect_active_design_failure_propagates_witness :
  (connect {| self := unconnected None; remote := idle; calls := [] |}).2 =
    Raised (Failure "no active design").
Proof.
  by edestruct (connect_active_design_failure_propagates
                  {| self := unconnected None; remote := idle; calls := [] |}
                  tt tt "chip" idle idle idle "C:/sims" "no active design")
    as [H _].
Defined.

Lemma connect_design_lookup_failure_wrapped_witness :
  (connect (start (unconnected (Some "qubit")))).2 =
    Raised (Exception design_message (Failure "no design named qubit")).
Proof.
  edestruct (connect_design_lookup_failure_wrapped
               (start (unconnected (Some "qubit")))
               tt tt "chip" chip chip chip "C:/sims" "qubit"
               "no design named qubit")
    as (err & Hrun & -> & _); [reflexivity.. |].
  exact Hrun.
Defined.

Lemma connect_selects_setup_witness :
  setup_name (self (connect (start (unconnected (Some "fresh")))).1) =
    Some "Setup" ∧
  setup_name (self (connect (start (unconnected None))).1) = Some "Setup1".
Proof.
  split.
  - edestruct (connect_selects_setup (start (unconnected (Some "fresh")))
                 tt tt "chip" chip chip chip "C:/sims" ("fresh", "Eigenmode"))
      as [Hnone _]; [reflexivity.. |].
    edestruct (Hnone chip (add_setup "fresh" "Setup" chip) "Setup")
      as (_ & _ & Hname); [reflexivity.. |].
    apply Hname. by intros got [= <-].
  - edestruct (connect_selects_setup (start (unconnected None))
                 tt tt "chip" chip chip chip "C:/sims"
                 ("transmon", "Eigenmode"))
      as [_ Hsome]; [reflexivity.. |].
    edestruct (Hsome chip "Setup1" ["Setup2"]) as (_ & _ & Hname);
      [reflexivity |].
    apply Hname. by intros got [= <-].
Defined.

(** * The further properties on the two collaborators *)

Lemma get_setup_outcomes_witness :
  get_setup (Some "HfssSetup9") (start (connected [])) =
    ({| self := connected []; remote := chip;
        calls :=
          [Call_design_get_setup ("transmon", "Eigenmode") (Some "Setup1")] |},
     Returned (Some "Setup1")).
Proof.
  destruct (get_setup_outcomes "HfssSetup9" (start (connected [])))
    as [_ H].
  exact (H ("transmon", "Eigenmode") chip (inr (Some "Setup1"))
           eq_refl eq_refl).
Defined.

Lemma get_all_variables_names_outcomes_witness :
  (get_all_variables_names (start (connected []))).2 =
    Returned ["$global"; "Lj_1"; "Lj_2"].
Proof.
  destruct (get_all_variables_names_outcomes (start (connected [])))
    as [_ H].
  destruct (H "chip" chip (inr ["$global"]) eq_refl eq_refl) as [_ H'].
  by rewrite (H' ("transmon", "Eigenmode") chip (inr ["Lj_1"; "Lj_2"])
                eq_refl eq_refl).
Defined.

Lemma get_all_object_names_stops_at_failure_witness :
  ∃ n,
    n ≤ 5 ∧
    calls (get_all_object_names (Flaky.start Flaky.bound 2)).1 =
      [] ++ (Call_get_objects_in_group (ansys := Flaky.ansys) tt <$>
               take n object_groups) ∧
    match (get_all_object_names (Flaky.start Flaky.bound 2)).2 with
    | Returned _ => n = 5
    | Raised e => 1 ≤ n ∧ ∃ f, e = Failure f
    end.
Proof.
  exact (proj2 (get_all_object_names_stops_at_failure
                  (Flaky.start Flaky.bound 2)) tt eq_refl).
Defined.

Lemma validate_junction_info_unconnected_witness :
  validate_junction_info (start (unconnected None)) =
    (start (unconnected None), Raised (AttributeError "get_variable_names")).
Proof.
  exact (validate_junction_info_unconnected (start (unconnected None))
           eq_refl).
Defined.

Lemma validate_junction_info_missing_key_witness :
  (validate_junction_info
     (start (connected [("j1", j1); ("j4", j4_no_line)]))).2 =
    Raised (KeyError "line").
Proof.
  pose (st := start (connected [("j1", j1); ("j4", j4_no_line)])).
  pose (st1 := (get_all_variables_names st).1).
  pose (st2 := (get_all_object_names st1).1).
  edestruct (validate_junction_info_missing_key st st1 st2
               ["$global"; "Lj_1"; "Lj_2"]
               ["substrate"; "jj_rect_1"; "jj_rect_1"; "jj_rect_2";
                "jj_line_1"; "jj_line_2"]
               eq_refl eq_refl [("j1", j1)] "j4" j4_no_line [] eq_refl)
    as (_ & _ & Hline).
  - intros item ->%list_elem_of_singleton.
    split_and!; eexists; (split; [vm_compute; reflexivity |]); by_deciding.
  - fold st. rewrite Hline; [reflexivity | | | vm_compute; reflexivity];
      eexists; (split; [vm_compute; reflexivity |]); by_deciding.
Defined.

Lemma validate_junction_info_reads_three_keys_witness :
  (validate_junction_info
     (start (connected
        [("j2", <["length" := "5e-05"]>
                  (<["Cj_variable" := "Cj_2"]> j2_bad_rect))]))).2 =
  (validate_junction_info (start (connected [("j2", j2_bad_rect)]))).2.
Proof.
  apply (validate_junction_info_reads_three_keys (start (connected []))
           [("j2", <["length" := "5e-05"]>
                     (<["Cj_variable" := "Cj_2"]> j2_bad_rect))]
           [("j2", j2_bad_rect)]).
  repeat constructor; vm_compute; reflexivity.
Defined.

Lemma disconnect_unbinds_nothing_witness :
  check_connected (disconnect (start (connected []))).1 =
    ((disconnect (start (connected []))).1, Returned true).
Proof.
  by destruct (disconnect_unbinds_nothing (start (connected [])) eq_refl)
    as [H _].
Defined.

Lemma connect_returned_is_bound_witness :
  check_connected (connect (start (unconnected None))).1 =
    ((connect (start (unconnected None))).1, Returned true).
Proof.
  assert (connect (start (unconnected None)) =
            ((connect (start (unconnected None))).1, Returned tt)) as Hrun
    by (vm_compute; reflexivity).
  destruct (connect_returned_is_bound _ _ Hrun) as [_ H].
  apply H. vm_compute. discriminate.
Defined.

Lemma connect_other_solution_type_witness :
  (connect (start_in lab (requested None None))).2 = Returned tt ∧
  check_connected (connect (start_in lab (requested None None))).1 =
    ((connect (start_in lab (requested None None))).1, Returned false) ∧
  (connect (start_in lab (requested None (Some "Setup1")))).2 =
    Raised (Exception setup_message (AttributeError "name")).
Proof.
  split_and!.
  - edestruct (connect_other_solution_type
                 (start_in lab (requested None None))
                 tt tt "lab" lab lab lab lab "C:/lab" ("q3d", "Q3D Extractor"))
      as [Hnone _]; [reflexivity.. | discriminate | discriminate |].
    by destruct (Hnone eq_refl) as [H _].
  - edestruct (connect_other_solution_type
                 (start_in lab (requested None None))
                 tt tt "lab" lab lab lab lab "C:/lab" ("q3d", "Q3D Extractor"))
      as [Hnone _]; [reflexivity.. | discriminate | discriminate |].
    destruct (Hnone eq_refl) as (_ & _ & _ & _ & H). by apply H.
  - edestruct (connect_other_solution_type
                 (start_in lab (requested None (Some "Setup1")))
                 tt tt "lab" lab lab lab lab "C:/lab" ("q3d", "Q3D Extractor"))
      as [_ Hsome]; [reflexivity.. | discriminate | discriminate |].
    destruct (Hsome "Setup1" eq_refl) as [_ H]. by apply H.
Defined.

Lemma connect_creates_driven_modal_setup_witness :
  setup_name
    (self (connect (start_in lab (requested (Some "driven") None))).1) =
    Some "Setup".
Proof.
  by edestruct (connect_creates_driven_modal_setup
                  (start_in lab (requested (Some "driven") None))
                  tt tt "lab" lab lab lab lab (add_setup "driven" "Setup" lab)
                  "C:/lab" ("driven", "DrivenModal") "Setup")
    as [_ H].
Defined.

Lemma connect_setup_failure_wrapped_witness :
  (connect (Flaky.start Flaky.blank 3)).2 =
    Raised (Exception setup_message
              (Failure (ansys := Flaky.ansys) "connection lost")) ∧
  (connect (Flaky.start Flaky.blank 4)).2 =
    Raised (Exception setup_message
              (Failure (ansys := Flaky.ansys) "connection lost")).
Proof.
  split.
  - edestruct (connect_setup_failure_wrapped (Flaky.start Flaky.blank 3)
                 tt tt tt 2 1 0 "C:/sims" tt) as (_ & Hnames & _);
      [reflexivity.. |].
    by destruct (Hnames 0 "connection lost" eq_refl) as [H _].
  - edestruct (connect_setup_failure_wrapped (Flaky.start Flaky.blank 4)
                 tt tt tt 3 2 1 "C:/sims" tt) as (_ & _ & Hlookup);
      [reflexivity.. |].
    by destruct (Hlookup 0 0 "Setup1" [] "connection lost" eq_refl eq_refl)
      as [H _].
Defined.

Lemma connect_load_failure_witness :
  connect (Flaky.start Flaky.blank 0) =
    ({| self := Flaky.blank; remote := 0;
        calls := [Call_load_ansys_project (ansys := Flaky.ansys) None None] |},
     Raised (Failure (ansys := Flaky.ansys) "connection lost")).
Proof.
  exact (connect_load_failure (Flaky.start Flaky.blank 0) 0
           "connection lost" eq_refl).
Defined.

Lemma connect_design_failure_leaves_project_bound_witness :
  project (self (connect (start (unconnected (Some "qubit")))).1) =
    Some "chip" ∧
  check_connected (connect (start (unconnected (Some "qubit")))).1 =
    ((connect (start (unconnected (Some "qubit")))).1, Returned false).
Proof.
  edestruct (connect_design_failure_leaves_project_bound
               (start (unconnected (Some "qubit")))
               tt tt "chip" chip chip chip "C:/sims" "no design named qubit")
    as [Hself Hc]; [reflexivity.. |].
  split; [by rewrite Hself | by apply Hc].
Defined.

Lemma connect_overrides_given_setup_name_witness :
  connect (start (requested None (Some "Setup2"))) =
  connect (start (requested None None)).
Proof.
  exact (connect_overrides_given_setup_name
           (start (requested None None))
           tt tt "chip" chip chip chip chip "C:/sims"
           ("transmon", "Eigenmode") "Setup1" ["Setup2"]
           eq_refl eq_refl eq_refl eq_refl (Some "Setup2")).
Defined.
